(** * CleanEmon-Backend: the core of [CleanEmonBackend/API/API.py]

    A shallow embedding of the data-preparation functions of the API
    module ([get_data], [get_range_data], [get_date_consumption],
    [get_mean_consumption], [get_meta], [has_meta]) and the properties the
    specification states about them.

    Conventions.
    - Python values that the code inspects dynamically are the inductive
      [value]; Python [float] is the kernel's binary64 [float], so that
      [consumption / size] is the IEEE division Python performs.
    - A metadata document and a sensor record are Python dicts with string
      keys: [gmap string value].
    - The functions of [lib/DBConnector] ([fetch_data], [get_last_value],
      [adapter.fetch_meta], [get_view_daily_consumption]) are not part of the
      sources; they are fields of the record [Store], a parameter of the
      whole development.
    - Effects are explicit: a computation threads a [state] holding the heap
      of shared Python lists and the trace of store calls and list
      mutations, and ends in [Ret v] or in [Raise e].
    - A string is the sequence of its bytes.  [float()] and [strptime] are
      modelled on ASCII text, where they agree with Python; on a string with
      a byte above 127 the model raises, which Python need not do (it also
      reads the decimal digits and the white space of other scripts).  A
      result [Ret] of the model is always Python's; a statement that rests
      on a [Raise] of the model carries the hypothesis [is_ascii].
    - The [while] loop of [get_range_data] runs on fuel that the function
      computes from the two dates; the lemmas on [range_loop] hold for every
      larger fuel, so for parsed dates the fuel never runs out
      ([range_loop_fuel]). *)

From Stdlib Require Import ZArith Floats Uint63 Ascii String Lia.
From stdpp Require Import gmap strings list fin_maps.

Local Open Scope string_scope.
Local Open Scope Z_scope.
Local Open Scope list_scope.

(** ** Python values and exceptions *)

Inductive value : Type :=
  | VNone
  | VBool (b : bool)
  | VInt (z : Z)
  | VFloat (x : float)
  | VStr (s : string).

Inductive exn : Type :=
  | ValueError
  | TypeError
  | OverflowError
  | ZeroDivisionError.

Inductive outcome (A : Type) : Type :=
  | Ret (a : A)
  | Raise (e : exn).
Arguments Ret {A} a.
Arguments Raise {A} e.

(** ** ASCII digits *)

Definition is_digit (c : ascii) : bool :=
  let n := nat_of_ascii c in (48 <=? n)%nat && (n <=? 57)%nat.

Definition digit_val (c : ascii) : Z := Z.of_nat (nat_of_ascii c) - 48.

(** Text without a byte above 127. *)
Definition is_ascii (s : string) : bool :=
  forallb (λ c, (nat_of_ascii c <? 128)%nat) (list_ascii_of_string s).

(** ** The builtin [float()] *)

Module PyFloat.

(** [round_ratio neg p q] is the binary64 number nearest to [p / q]
    (ties to even), negated when [neg]; [0 <= p], [0 < q].  A result
    beyond the largest finite number is [infinity]. *)
Definition round_ratio (neg : bool) (p q : Z) : float :=
  if p =? 0 then (if neg then (-0)%float else 0%float)
  else
    let k0 := Z.max (Z.log2 p - Z.log2 q - 53) (-1074) in
    let scaled k := if 0 <=? k then p / (q * 2 ^ k) else (p * 2 ^ (- k)) / q in
    let k := if 2 ^ 53 <=? scaled k0 then k0 + 1 else k0 in
    let num := if 0 <=? k then p else p * 2 ^ (- k) in
    let den := if 0 <=? k then q * 2 ^ k else q in
    let m := num / den in
    let r := num mod den in
    let m' := if (den <? 2 * r) || ((den =? 2 * r) && Z.odd m) then m + 1 else m in
    let x := Z.ldexp (PrimFloat.of_uint63 (Uint63.of_Z m')) k in
    if neg then (- x)%float else x.

(** [float(n)] for a Python int: the nearest float, or [OverflowError]
    when [n] is too large. *)
Definition of_int (z : Z) : outcome float :=
  let x := round_ratio (z <? 0) (Z.abs z) 1 in
  if PrimFloat.eqb (PrimFloat.abs x) infinity then Raise OverflowError else Ret x.

(** The white space [float] strips from both ends of ASCII text: the space
    and the characters 9 to 13 (tab, line feed, vertical tab, form feed,
    carriage return). *)
Definition is_space (c : ascii) : bool :=
  let n := nat_of_ascii c in
  ((9 <=? n)%nat && (n <=? 13)%nat) || (n =? 32)%nat.

Definition lower (c : ascii) : ascii :=
  let n := nat_of_ascii c in
  if (65 <=? n)%nat && (n <=? 90)%nat then ascii_of_nat (n + 32) else c.

Fixpoint lstrip (l : list ascii) : list ascii :=
  match l with
  | c :: l' => if is_space c then lstrip l' else l
  | [] => []
  end.

Definition strip (l : list ascii) : list ascii :=
  reverse (lstrip (reverse (lstrip l))).

(** An underscore is accepted only between two digits (PEP 515); the
    accepted ones are dropped. [prev] is the previous character. *)
Fixpoint drop_underscores (prev : option ascii) (l : list ascii) : option (list ascii) :=
  match l with
  | [] => match prev with Some "_"%char => None | _ => Some [] end
  | c :: l' =>
      if Ascii.eqb c "_" then
        match prev with
        | Some p => if is_digit p then drop_underscores (Some c) l' else None
        | None => None
        end
      else
        match prev with
        | Some "_"%char => if is_digit c then cons c <$> drop_underscores (Some c) l' else None
        | _ => cons c <$> drop_underscores (Some c) l'
        end
  end.

(** A run of digits: its value continued from [acc], how many there were,
    and the rest of the input. *)
Fixpoint digits (acc : Z) (n : Z) (l : list ascii) : Z * Z * list ascii :=
  match l with
  | c :: l' => if is_digit c then digits (10 * acc + digit_val c) (n + 1) l' else (acc, n, l)
  | [] => (acc, n, [])
  end.

Definition sign (l : list ascii) : bool * list ascii :=
  match l with
  | "-"%char :: l' => (true, l')
  | "+"%char :: l' => (false, l')
  | _ => (false, l)
  end.

(** The exponent part: [e] or [E], an optional sign and at least one
    digit; it must end the input. *)
Definition exponent (l : list ascii) : option Z :=
  match l with
  | [] => Some 0
  | c :: l' =>
      if Ascii.eqb (lower c) "e" then
        let '(neg, l'') := sign l' in
        match digits 0 0 l'' with
        | (e, n, []) => if 0 <? n then Some (if neg then - e else e) else None
        | _ => None
        end
      else None
  end.

(** A decimal literal [digits [. digits] [exponent]] or [. digits
    [exponent]], as the pair of its digits read as an integer and its power
    of ten. *)
Definition decimal (l : list ascii) : option (Z * Z) :=
  let '(ip, ni, l1) := digits 0 0 l in
  let '(m, nf, l2) :=
    match l1 with
    | "."%char :: l1' => digits ip 0 l1'
    | _ => (ip, 0, l1)
    end in
  if 0 <? ni + nf then
    e ← exponent l2; Some (m, e - nf)
  else None.

Definition of_decimal (neg : bool) (m e : Z) : float :=
  if 0 <=? e then round_ratio neg (m * 10 ^ e) 1 else round_ratio neg m (10 ^ (- e)).

(** [float(s)] for a string: white space is stripped, then the text is
    [inf], [infinity] or [nan] (in any case) or a decimal literal, with an
    optional sign; anything else is a [ValueError].  This is Python's
    [float] on ASCII text; on other text the model raises where Python may
    return a number. *)
Definition of_str (s : string) : outcome float :=
  match drop_underscores None (strip (list_ascii_of_string s)) with
  | None => Raise ValueError
  | Some l =>
      let '(neg, body) := sign l in
      let word := string_of_list_ascii (lower <$> body) in
      if String.eqb word "inf" || String.eqb word "infinity" then
        Ret (if neg then neg_infinity else infinity)
      else if String.eqb word "nan" then Ret nan
      else
        match decimal body with
        | Some (m, e) => Ret (of_decimal neg m e)
        | None => Raise ValueError
        end
  end.

(** [float(v)]. *)
Definition of_value (v : value) : outcome float :=
  match v with
  | VNone => Raise TypeError
  | VBool b => Ret (if b then 1%float else 0%float)
  | VInt z => of_int z
  | VFloat x => Ret x
  | VStr s => of_str s
  end.

(** Truth value of a float: false for both zeros, true otherwise ([nan]
    included). *)
Definition truthy (x : float) : bool := negb (PrimFloat.eqb x 0).

End PyFloat.

(** ** [datetime]: dates of the proleptic Gregorian calendar *)

Module Calendar.

(** A [datetime] at midnight; the code builds no other.  Python keeps
    [1 <= year <= 9999] and the day within its month ([valid_date]). *)
Record datetime : Type := {
  year : Z;
  month : Z;
  day : Z
}.

Definition MAXYEAR : Z := 9999.

Definition is_leap (y : Z) : bool :=
  (y mod 4 =? 0) && (negb (y mod 100 =? 0) || (y mod 400 =? 0)).

Definition days_in_month (y m : Z) : Z :=
  match m with
  | 1 | 3 | 5 | 7 | 8 | 10 | 12 => 31
  | 4 | 6 | 9 | 11 => 30
  | 2 => if is_leap y then 29 else 28
  | _ => 0
  end.

Definition valid_date (dt : datetime) : bool :=
  (1 <=? year dt) && (year dt <=? MAXYEAR) && (1 <=? month dt) && (month dt <=? 12)
  && (1 <=? day dt) && (day dt <=? days_in_month (year dt) (month dt)).

(** Days before January 1st of year [y]. *)
Definition days_before_year (y : Z) : Z :=
  let y := y - 1 in y * 365 + y / 4 - y / 100 + y / 400.

(** Days of year [y] before the first day of month [m]. *)
Definition days_before_month (y m : Z) : Z :=
  match m with
  | 1 => 0 | 2 => 31 | 3 => 59 | 4 => 90 | 5 => 120 | 6 => 151 | 7 => 181
  | 8 => 212 | 9 => 243 | 10 => 273 | 11 => 304 | 12 => 334 | _ => 0
  end + (if (2 <? m) && is_leap y then 1 else 0).

(** [datetime.toordinal]: the day number, 0001-01-01 being day 1. *)
Definition toordinal (dt : datetime) : Z :=
  days_before_year (year dt) + days_before_month (year dt) (month dt) + day dt.

(** [a <= b] compares the fields in order. *)
Definition le (a b : datetime) : bool :=
  (year a <? year b)
  || ((year a =? year b)
      && ((month a <? month b) || ((month a =? month b) && (day a <=? day b)))).

(** The calendar day after [dt]. *)
Definition next_day (dt : datetime) : datetime :=
  if day dt <? days_in_month (year dt) (month dt) then
    {| year := year dt; month := month dt; day := day dt + 1 |}
  else if month dt <? 12 then
    {| year := year dt; month := month dt + 1; day := 1 |}
  else {| year := year dt + 1; month := 1; day := 1 |}.

(** [dt + timedelta(days=1)]: an [OverflowError] past 9999-12-31. *)
Definition add_one_day (dt : datetime) : outcome datetime :=
  let dt' := next_day dt in
  if year dt' <=? MAXYEAR then Ret dt' else Raise OverflowError.

Definition in_range (c : ascii) (lo hi : Z) : bool :=
  is_digit c && (lo <=? digit_val c) && (digit_val c <=? hi).

(** The directive [%m] followed by the separator: [1[0-2]], [0[1-9]] or
    [[1-9]], then [-]. *)
Definition parse_month (l : list ascii) : option (Z * list ascii) :=
  match l with
  | c1 :: "-"%char :: rest =>
      if in_range c1 1 9 then Some (digit_val c1, rest) else None
  | c1 :: c2 :: "-"%char :: rest =>
      if (Ascii.eqb c1 "1" && in_range c2 0 2) || (Ascii.eqb c1 "0" && in_range c2 1 9)
      then Some (10 * digit_val c1 + digit_val c2, rest) else None
  | _ => None
  end.

(** The directive [%d], which must end the input: [3[01]], [[12]\d],
    [0[1-9]], [[1-9]] or a space and [[1-9]]. *)
Definition parse_day (l : list ascii) : option Z :=
  match l with
  | [c1] => if in_range c1 1 9 then Some (digit_val c1) else None
  | [c1; c2] =>
      if (Ascii.eqb c1 "3" && in_range c2 0 1) || (in_range c1 1 2 && is_digit c2)
         || (Ascii.eqb c1 "0" && in_range c2 1 9)
      then Some (10 * digit_val c1 + digit_val c2)
      else if Ascii.eqb c1 " " && in_range c2 1 9 then Some (digit_val c2)
      else None
  | _ => None
  end.

(** [datetime.strptime(s, "%Y-%m-%d")]: four digits, a month and a day,
    separated by [-]; a [ValueError] when the text does not match or names
    no day of the calendar.  This is Python's [strptime] on ASCII text; on
    other text the model raises where Python may return a date. *)
Definition strptime (s : string) : outcome datetime :=
  match list_ascii_of_string s with
  | y1 :: y2 :: y3 :: y4 :: "-"%char :: rest =>
      if is_digit y1 && is_digit y2 && is_digit y3 && is_digit y4 then
        match parse_month rest with
        | Some (m, rest') =>
            match parse_day rest' with
            | Some d =>
                let dt := {| year := 1000 * digit_val y1 + 100 * digit_val y2
                                     + 10 * digit_val y3 + digit_val y4;
                             month := m; day := d |} in
                if valid_date dt then Ret dt else Raise ValueError
            | None => Raise ValueError
            end
        | None => Raise ValueError
        end
      else Raise ValueError
  | _ => Raise ValueError
  end.

Definition digit_char (n : Z) : ascii := ascii_of_nat (Z.to_nat (48 + n mod 10)).

(** [dt.strftime("%Y-%m-%d")] for a year from 1000 on, where every
    platform writes the four digits of the year.  For an earlier year the
    text depends on the C library (glibc writes [999-01-01], others
    [0999-01-01]); the model pads with zeros, and the statements about the
    text that is written assume [1000 <= year]. *)
Definition strftime (dt : datetime) : string :=
  string_of_list_ascii
    [digit_char (year dt / 1000); digit_char (year dt / 100); digit_char (year dt / 10);
     digit_char (year dt); "-"%char;
     digit_char (month dt / 10); digit_char (month dt); "-"%char;
     digit_char (day dt / 10); digit_char (day dt)].

(** [datetime.max], at midnight. *)
Definition max_date : datetime := {| year := 9999; month := 12; day := 31 |}.

End Calendar.

(** ** Effects: the heap of shared lists and the trace *)

(** A reference to a Python list object.  Two arguments that hold the same
    [loc] are the same object. *)
Definition loc := positive.

Inductive event : Type :=
  | Fetch_data (date : option string) (db : option string) (down_sampling : bool)
  | Get_last_value (db : option string)
  | Get_view_daily_consumption (date : string) (db : option string)
  | Fetch_meta (db : option string)
  | List_append (l : loc) (x : string).

Record state : Type := {
  heap : gmap loc (list string);
  trace : list event
}.

Definition M (A : Type) : Type := state -> outcome A * state.

Definition ret {A} (a : A) : M A := fun s => (Ret a, s).

Definition raise {A} (e : exn) : M A := fun s => (Raise e, s).

Definition bind {A B} (c : M A) (k : A -> M B) : M B :=
  fun s =>
    match c s with
    | (Ret a, s') => k a s'
    | (Raise e, s') => (Raise e, s')
    end.

Notation "x <- c ;; k" := (bind c (fun x => k))
  (at level 100, c at next level, right associativity).
Notation "c ;;; k" := (bind c (fun _ => k))
  (at level 100, right associativity).

Definition lift {A} (o : outcome A) : M A := fun s => (o, s).

Definition emit (e : event) : M unit :=
  fun s => (Ret tt, {| heap := heap s; trace := trace s ++ [e] |}).

(** Reading the list behind a reference. *)
Definition load (l : loc) : M (list string) :=
  fun s => (Ret (default [] (heap s !! l)), s).

(** [list.append]: the object behind [l] grows in place. *)
Definition list_append (l : loc) (x : string) : M unit :=
  fun s =>
    (Ret tt, {| heap := <[l := default [] (heap s !! l) ++ [x]]> (heap s);
                trace := trace s ++ [List_append l x] |}).

(** The value and the final state of a computation. *)
Definition result {A} (c : M A) (s : state) : outcome A := fst (c s).
Definition final {A} (c : M A) (s : state) : state := snd (c s).

(** ** Data model *)

(** [CleanEmonCore.models.EnergyData]: a date and that day's records. *)
Record EnergyData : Type := {
  date : option string;
  energy_data : list (gmap string value)
}.

(** The dict [get_range_data] returns. *)
Record RangeResult : Type := {
  from_date : string;
  to_date : string;
  range_data : list EnergyData
}.

(** One power reading of a day, as the specification classifies them. *)
Inductive reading : Type :=
  | Missing
  | Null
  | NonNumeric (s : string)
  | Number (x : float).

(** What the store holds for a day's consumption: a precomputed view, or
    the day's raw power readings. *)
Inductive day_view : Type :=
  | Precomputed (kwh : float)
  | Readings (l : list reading).

Inductive ConsumptionValue : Type :=
  | Value (kwh : float)
  | Unavailable.

(** The store adapter ([lib/DBConnector]), read only here.
    [store_unavailable] is the float by which the adapter signals that a
    day's consumption is unavailable: the source annotates the simplified
    consumption as a [float] ([consumption: float], line 135), and section
    7 of the specification makes the indicator a distinguished return value
    that callers compose without exceptions.  Which float it is, the
    adapter decides. *)
Record Store : Type := {
  store_fetch_data : option string -> option string -> bool -> EnergyData;
  store_last_value : option string -> EnergyData;
  store_meta : option string -> gmap string value;
  store_day_view : string -> option string -> day_view;
  store_unavailable : float
}.

(** What [get_meta] returns: the metadata document, the empty dict, or one
    of its values. *)
Inductive meta_result : Type :=
  | MetaDict (m : gmap string value)
  | MetaValue (v : value).

(** What [get_date_consumption] returns: the bare consumption, or the dict
    [{"consumption": c, "unit": u}]. *)
Inductive consumption_data : Type :=
  | Simplified (c : ConsumptionValue)
  | Detailed (consumption : ConsumptionValue) (unit : string).

(** ** The daily consumption estimate *)

Definition valid (r : reading) : bool :=
  match r with Number _ => true | _ => false end.

(** The first valid reading, scanning from the start. *)
Fixpoint first_valid (l : list reading) : option float :=
  match l with
  | [] => None
  | Number x :: _ => Some x
  | _ :: l' => first_valid l'
  end.

(** The last valid reading, scanning from the end. *)
Definition last_valid (l : list reading) : option float :=
  first_valid (reverse l).

(** Modelled from the spec: [get_view_daily_consumption] is defined in
    [lib/DBConnector], which is not among the sources.  Section 4.2: a
    precomputed view is passed through; otherwise the estimate is the last
    valid reading minus the first valid one, each found by scanning past
    null, missing and non-numeric readings, and the unavailable indicator
    when a scan finds none. *)
Definition estimate (v : day_view) : ConsumptionValue :=
  match v with
  | Precomputed kwh => Value kwh
  | Readings l =>
      match first_valid l, last_valid l with
      | Some a, Some b => Value (b - a)%float
      | _, _ => Unavailable
      end
  end.

(** ** Python operators the code applies to dynamic values *)

(** [v != s] for a string [s]: a value that is not a string differs from
    every string. *)
Definition ne_str (v : value) (s : string) : bool :=
  match v with
  | VStr s' => negb (String.eqb s' s)
  | _ => true
  end.

(** [not field] for [field : Optional[str]]: [None] and the empty string. *)
Definition not_str (field : option string) : bool :=
  match field with
  | None | Some "" => true
  | Some _ => false
  end.

(** [float(x)] on what [get_meta] returned; a dict is no number. *)
Definition float_of_meta (r : meta_result) : outcome float :=
  match r with
  | MetaDict _ => Raise TypeError
  | MetaValue v => PyFloat.of_value v
  end.

(** A metadata value whose text, if it is text, is ASCII. *)
Definition ascii_value (v : value) : bool :=
  match v with
  | VStr s => is_ascii s
  | _ => true
  end.

(** The float a simplified consumption is. *)
Definition as_float (store : Store) (c : ConsumptionValue) : float :=
  match c with
  | Value kwh => kwh
  | Unavailable => store_unavailable store
  end.

(** [consumption / size]: float division, which raises on a zero divisor.
    The dict [{"consumption": c, "unit": u}] is no number. *)
Definition truediv (store : Store) (consumption : consumption_data) (size : float)
    : outcome value :=
  match consumption with
  | Simplified c =>
      if PrimFloat.eqb size 0 then Raise ZeroDivisionError
      else Ret (VFloat (as_float store c / size))
  | Detailed _ _ => Raise TypeError
  end.

Section API.

Context (store : Store).

(** *** Calls into the store adapter *)

Definition fetch_data (date : option string) (db : option string)
    (down_sampling : bool) : M EnergyData :=
  emit (Fetch_data date db down_sampling);;;
  ret (store_fetch_data store date db down_sampling).

Definition get_last_value (db : option string) : M EnergyData :=
  emit (Get_last_value db);;;
  ret (store_last_value store db).

Definition adapter_fetch_meta (db : option string) : M (gmap string value) :=
  emit (Fetch_meta db);;;
  ret (store_meta store db).

Definition get_view_daily_consumption (date : string) (db : option string)
    : M ConsumptionValue :=
  emit (Get_view_daily_consumption date db);;;
  ret (estimate (store_day_view store date db)).

(** *** Daily data *)

(** [{sensor: value for sensor, value in record.items() if sensor in sensors}] *)
Definition filter_record (sensors : list string) (record : gmap string value)
    : gmap string value :=
  filter (λ kv, kv.1 ∈ sensors) record.

(** The loop over [raw_data] that appends each filtered record. *)
Definition filter_loop (sensors : list string) (raw_data : list (gmap string value))
    : list (gmap string value) :=
  foldl (λ filtered_data record, filtered_data ++ [filter_record sensors record])
        [] raw_data.

(** [data[-1:]] *)
Definition last_only {A} (data : list A) : list A :=
  drop (length data - 1)%nat data.

(** [sensors] is [None] or a reference to the caller's list. *)
Definition get_data (date : option string) (sensors : option loc) (db : option string)
    (keep_last_only down_sampling : bool) : M EnergyData :=
  if keep_last_only then get_last_value db
  else
    raw <- fetch_data date db down_sampling;;
    let raw_data := energy_data raw in
    data <- match sensors with
            | None => ret raw_data
            | Some l =>
                xs <- load l;;
                match xs with
                | [] => ret raw_data
                | _ :: _ =>
                    (if bool_decide ("timestamp" ∈ xs) then ret tt
                     else list_append l "timestamp");;;
                    xs <- load l;;
                    ret (filter_loop xs raw_data)
                end
            end;;
    let data := if keep_last_only then last_only data else data in
    ret {| date := date; energy_data := data |}.

(** [get_data] as the specification's reading of it: the same text with
    the branch [if keep_last_only: data = data[-1:]] left out.  It is compared
    with [get_data] below. *)
Definition get_data_without_truncation (date : option string) (sensors : option loc)
    (db : option string) (keep_last_only down_sampling : bool) : M EnergyData :=
  if keep_last_only then get_last_value db
  else
    raw <- fetch_data date db down_sampling;;
    let raw_data := energy_data raw in
    data <- match sensors with
            | None => ret raw_data
            | Some l =>
                xs <- load l;;
                match xs with
                | [] => ret raw_data
                | _ :: _ =>
                    (if bool_decide ("timestamp" ∈ xs) then ret tt
                     else list_append l "timestamp");;;
                    xs <- load l;;
                    ret (filter_loop xs raw_data)
                end
            end;;
    ret {| date := date; energy_data := data |}.

(** *** Range data *)

(** The [while now <= to_dt] loop.  [fuel] bounds the iterations;
    [get_range_data] supplies more than the loop can use. *)
Fixpoint range_loop (fuel : nat) (now to_dt : Calendar.datetime) (sensors : option loc)
    (db : option string) (down_sampling : bool) (range_data : list EnergyData)
    : M (list EnergyData) :=
  match fuel with
  | O => ret range_data
  | S fuel =>
      if Calendar.le now to_dt then
        let now_str := Calendar.strftime now in
        daily_data <- get_data (Some now_str) sensors db false down_sampling;;
        let range_data := range_data ++ [daily_data] in
        now <- lift (Calendar.add_one_day now);;
        range_loop fuel now to_dt sensors db down_sampling range_data
      else ret range_data
  end.

Definition get_range_data (from_date to_date : string) (sensors : option loc)
    (db : option string) (down_sampling : bool) : M RangeResult :=
  from_dt <- lift (Calendar.strptime from_date);;
  to_dt <- lift (Calendar.strptime to_date);;
  let fuel := S (Z.to_nat (Calendar.toordinal to_dt - Calendar.toordinal from_dt + 1)) in
  range_data <- range_loop fuel from_dt to_dt sensors db down_sampling [];;
  ret {| from_date := from_date; to_date := to_date; range_data := range_data |}.

(** *** Metadata *)

Definition get_meta (field : option string) (db : option string) : M meta_result :=
  meta <- adapter_fetch_meta db;;
  if not_str field then ret (MetaDict meta)
  else
    match field ≫= (meta !!.) with
    | Some v => ret (MetaValue v)
    | None => ret (MetaDict ∅)
    end.

Definition has_meta (field : string) (db : option string) : M bool :=
  r <- get_meta None db;;
  match r with
  | MetaDict meta =>
      match meta !! field with
      | None => ret false
      | Some value => ret (ne_str value "null")
      end
  | MetaValue _ => raise TypeError
  end.

(** *** Consumption *)

Definition get_date_consumption (date : string) (simplify : bool)
    (db : option string) : M consumption_data :=
  consumption <- get_view_daily_consumption date db;;
  ret (if simplify then Simplified consumption else Detailed consumption "kwh").

Definition get_mean_consumption (date : string) (db : option string) : M value :=
  let _size_field := "Household m2" in
  consumption <- get_date_consumption date true db;;
  has <- has_meta _size_field db;;
  if has then
    m <- get_meta (Some _size_field) db;;
    size <- lift (float_of_meta m);;
    if PyFloat.truthy size then lift (truediv store consumption size)
    else ret (VInt (-1))
  else ret (VInt (-1)).

End API.

(** *** Plots *)

Section Plot.

(** [lib/plots.plot_data] is not among the sources: it is a parameter, a
    function of the data and of the columns it is handed.  [columns] is the
    caller's list object, read when [plot_data] runs. *)
Context (store : Store) {BytesIO : Type}
  (plot_data : EnergyData -> option (list string) -> BytesIO).

Definition get_plot (date : string) (sensors : option loc) (db : option string)
    : M BytesIO :=
  energy_data <- get_data store (Some date) sensors db false false;;
  columns <- match sensors with
             | None => ret None
             | Some l => xs <- load l;; ret (Some xs)
             end;;
  ret (plot_data energy_data columns).

End Plot.

(** ** What one call of [get_data] does, in closed form *)

(** The list behind the [sensors] argument ([[]] when it is [None]). *)
Definition listed (s : state) (sensors : option loc) : list string :=
  match sensors with
  | None => []
  | Some l => default [] (heap s !! l)
  end.

(** The test [sensors and "timestamp" not in sensors]. *)
Definition needs_timestamp (xs : list string) : bool :=
  match xs with
  | [] => false
  | _ :: _ => negb (bool_decide ("timestamp" ∈ xs))
  end.

(** The sensor list the filter uses. *)
Definition effective (xs : list string) : list string :=
  if needs_timestamp xs then xs ++ ["timestamp"] else xs.

Definition select (xs : list string) (raw_data : list (gmap string value))
    : list (gmap string value) :=
  match xs with
  | [] => raw_data
  | _ :: _ => filter_record xs <$> raw_data
  end.

(** The events and the heap one call with [keep_last_only = False] leaves. *)
Definition appended (s : state) (sensors : option loc) : list event :=
  match sensors with
  | Some l => if needs_timestamp (listed s sensors) then [List_append l "timestamp"] else []
  | None => []
  end.

Definition heap_after (s : state) (sensors : option loc) : gmap loc (list string) :=
  match sensors with
  | Some l =>
      if needs_timestamp (listed s sensors)
      then <[l := listed s sensors ++ ["timestamp"]]> (heap s) else heap s
  | None => heap s
  end.

Definition after_get_data (s : state) (date : option string) (sensors : option loc)
    (db : option string) (down_sampling : bool) : state :=
  {| heap := heap_after s sensors;
     trace := trace s ++ Fetch_data date db down_sampling :: appended s sensors |}.

(** The number of in-place appends in a trace. *)
Definition is_append (e : event) : bool :=
  match e with List_append _ _ => true | _ => false end.

Definition appends (t : list event) : nat := length (filter is_append t).

(** The calls into the store adapter in a trace, in order. *)
Definition store_calls (t : list event) : list event :=
  filter (λ e, negb (is_append e)) t.

(** ** Vocabulary of the statements *)

(** [n] consecutive days from [now] on. *)
Fixpoint days (now : Calendar.datetime) (n : nat) : list Calendar.datetime :=
  match n with
  | O => []
  | S n => now :: days (Calendar.next_day now) n
  end.

(** The entry [get_data] builds for day [d] when the filter uses [xs]. *)
Definition day_entry (store : Store) (xs : list string) (db : option string)
    (down_sampling : bool) (d : Calendar.datetime) : EnergyData :=
  {| date := Some (Calendar.strftime d);
     energy_data :=
       select xs (energy_data (store_fetch_data store (Some (Calendar.strftime d)) db
                                 down_sampling)) |}.

(** The state after one [get_data] call per day of [l]. *)
Definition after_days (s : state) (sensors : option loc) (db : option string)
    (down_sampling : bool) (l : list Calendar.datetime) : state :=
  foldl (λ s d, after_get_data s (Some (Calendar.strftime d)) sensors db down_sampling) s l.

(** [a] is the first valid reading of [l]: only invalid ones come before. *)
Definition FirstValid (l : list reading) (a : float) : Prop :=
  ∃ pre rest, l = pre ++ Number a :: rest ∧ Forall (λ r, valid r = false) pre.

(** [b] is the last valid reading of [l]: only invalid ones come after. *)
Definition LastValid (l : list reading) (b : float) : Prop :=
  ∃ rest post, l = rest ++ Number b :: post ∧ Forall (λ r, valid r = false) post.

(** ** Example inputs *)

Module Examples.

Definition record0 : gmap string value :=
  {[ "timestamp" := VStr "2023-02-27T00:00"; "power" := VFloat 3; "kwh" := VInt 7 ]}.

Definition record1 : gmap string value :=
  {[ "timestamp" := VStr "2023-02-27T00:05"; "temp" := VNone ]}.

Definition store : Store :=
  {| store_fetch_data := λ d _ _, {| date := d; energy_data := [record0; record1] |};
     store_last_value := λ _, {| date := Some "2023-03-01"; energy_data := [record1] |};
     store_meta := λ _, {[ "Household m2" := VInt 50; "Owner" := VStr "null";
                           "Floors" := VInt 0; "Heated" := VBool false ]};
     store_day_view := λ _ _, Precomputed 12.5;
     store_unavailable := nan |}.

(** The caller's list [["power"]] lives at location 1, an empty list at 2. *)
Definition sensors : loc := 1%positive.
Definition no_sensors : loc := 2%positive.

Definition initial : state :=
  {| heap := {[ sensors := ["power"]; no_sensors := [] ]}; trace := [] |}.

(** A metadata mapping whose only key is the empty string. *)
Definition nameless_store : Store :=
  {| store_fetch_data := store_fetch_data store;
     store_last_value := store_last_value store;
     store_meta := λ _, {[ "" := VInt 1 ]};
     store_day_view := store_day_view store;
     store_unavailable := store_unavailable store |}.

(** The day of the specification's scenario: null, 10, null, 25. *)
Definition scenario_store : Store :=
  {| store_fetch_data := store_fetch_data store;
     store_last_value := store_last_value store;
     store_meta := store_meta store;
     store_day_view := λ _ _, Readings [Null; Number 10; Null; Number 25];
     store_unavailable := store_unavailable store |}.

(** A building whose size was entered as text. *)
Definition unsized_store : Store :=
  {| store_fetch_data := store_fetch_data store;
     store_last_value := store_last_value store;
     store_meta := λ _, {[ "Household m2" := VStr "unknown" ]};
     store_day_view := store_day_view store;
     store_unavailable := store_unavailable store |}.

End Examples.

(** Further example inputs. *)
Module MoreExamples.

(** A second caller's list, with the sensors of [Examples.sensors] twice and
    in another order. *)
Definition shuffled : loc := 3%positive.

Definition initial : state :=
  {| heap := {[ Examples.sensors := ["power"; "kwh"];
                shuffled := ["kwh"; "power"; "kwh"] ]};
     trace := [] |}.

(** A record without a timestamp, and one with none of the sensors. *)
Definition bare_store : Store :=
  {| store_fetch_data := λ d _ _,
       {| date := d;
          energy_data := [ {[ "power" := VInt 1 ]}; {[ "temp" := VInt 20 ]} ] |};
     store_last_value := store_last_value Examples.store;
     store_meta := store_meta Examples.store;
     store_day_view := store_day_view Examples.store;
     store_unavailable := store_unavailable Examples.store |}.

End MoreExamples.

(** * Properties *)

Ltac run := unfold result, final, bind, ret, raise, lift, emit, load, list_append; simpl.

Lemma foldl_snoc_fmap {A B} (f : A -> B) (l : list A) (acc : list B) :
  foldl (λ acc x, acc ++ [f x]) acc l = acc ++ (f <$> l).
Proof.
  revert acc; induction l as [|x l IH]; intros acc; simpl.
  - by rewrite app_nil_r.
  - rewrite IH. by rewrite <- app_assoc.
Qed.

Lemma filter_loop_fmap xs raw_data :
  filter_loop xs raw_data = filter_record xs <$> raw_data.
Proof. unfold filter_loop. by rewrite foldl_snoc_fmap. Qed.

Lemma effective_nil xs : effective xs = [] ↔ xs = [].
Proof.
  unfold effective. destruct xs as [|x xs]; simpl; [done|].
  case_bool_decide; simpl; split; intros Heq; done.
Qed.

Lemma elem_of_effective k xs :
  xs ≠ [] → k ∈ effective xs ↔ k ∈ xs ∨ k = "timestamp".
Proof.
  intros Hne. unfold effective, needs_timestamp.
  destruct xs as [|x xs]; [done|].
  case_bool_decide as Hin; simpl.
  - split; [by left | intros [?| ->]; done].
  - change (x :: xs ++ ["timestamp"]) with ((x :: xs) ++ ["timestamp"]).
    rewrite elem_of_app, list_elem_of_singleton. done.
Qed.

Lemma needs_timestamp_true xs :
  needs_timestamp xs = true ↔ xs ≠ [] ∧ "timestamp" ∉ xs.
Proof.
  destruct xs as [|x xs]; simpl.
  - split; [done | by intros [? _]].
  - rewrite negb_true_iff, bool_decide_eq_false. split; [done | by intros [_ ?]].
Qed.

Lemma needs_timestamp_false xs :
  needs_timestamp xs = false ↔ xs = [] ∨ "timestamp" ∈ xs.
Proof.
  destruct xs as [|x xs]; simpl.
  - split; [by left | done].
  - rewrite negb_false_iff, bool_decide_eq_true. split; [by right | by intros [?|?]].
Qed.

Lemma needs_timestamp_effective xs : needs_timestamp (effective xs) = false.
Proof.
  unfold effective. destruct (needs_timestamp xs) eqn:E; [|done].
  destruct xs as [|x xs]; [done|]. simpl.
  rewrite bool_decide_eq_true_2; [done|].
  apply elem_of_cons; right. apply elem_of_app; right. by apply list_elem_of_singleton.
Qed.

Section Get_data.

Context (store : Store).

(** One call of [get_data] with [keep_last_only = False]. *)
Lemma get_data_run date sensors db down_sampling s :
  get_data store date sensors db false down_sampling s =
  (Ret {| date := date;
          energy_data := select (effective (listed s sensors))
                           (energy_data (store_fetch_data store date db down_sampling)) |},
   after_get_data s date sensors db down_sampling).
Proof.
  unfold get_data, fetch_data, after_get_data, heap_after, appended. run.
  destruct sensors as [l|]; simpl; [|done].
  destruct (default [] (heap s !! l)) as [|x xs] eqn:E; simpl; [done|].
  unfold effective. simpl. case_bool_decide as Hin; simpl.
  - rewrite E. by rewrite filter_loop_fmap.
  - rewrite lookup_insert_eq. simpl. rewrite filter_loop_fmap, E.
    by rewrite <- app_assoc.
Qed.

Lemma listed_after s date sensors db down_sampling :
  listed (after_get_data s date sensors db down_sampling) sensors
  = effective (listed s sensors).
Proof.
  unfold after_get_data, heap_after, effective. destruct sensors as [l|]; simpl; [|done].
  destruct (needs_timestamp _) eqn:E; [|done].
  by rewrite lookup_insert_eq.
Qed.

End Get_data.

(** ** Metadata accessor *)

Lemma ne_str_false v s : ne_str v s = false ↔ v = VStr s.
Proof.
  destruct v; simpl; try (split; [done | congruence]).
  rewrite negb_false_iff, String.eqb_eq. split; congruence.
Qed.

Lemma has_meta_run store field db s :
  has_meta store field db s =
  (Ret (match store_meta store db !! field with
        | None => false
        | Some v => ne_str v "null"
        end),
   {| heap := heap s; trace := trace s ++ [Fetch_meta db] |}).
Proof.
  unfold has_meta, get_meta, adapter_fetch_meta. run.
  by destruct (store_meta store db !! field).
Qed.

Lemma get_meta_run store field db s :
  get_meta store field db s =
  (Ret (if not_str field then MetaDict (store_meta store db)
        else match field ≫= (store_meta store db !!.) with
             | Some v => MetaValue v
             | None => MetaDict ∅
             end),
   {| heap := heap s; trace := trace s ++ [Fetch_meta db] |}).
Proof.
  unfold get_meta, adapter_fetch_meta. run.
  destruct (not_str field); [done|].
  by destruct (field ≫= _).
Qed.

(** C5. [has_meta] answers [False] exactly when the field is missing from
    the metadata mapping or maps to the string ["null"]; for every other
    present value, the falsy [0] and [False] included, it answers [True]. *)
Theorem has_meta_spec (store : Store) (field : string) (db : option string) (s : state) :
  let meta := store_meta store db in
  let answer := result (has_meta store field db) s in
  (answer = Ret false ↔ meta !! field = None ∨ meta !! field = Some (VStr "null"))
  ∧ (answer = Ret true ↔ ∃ v, meta !! field = Some v ∧ v ≠ VStr "null")
  ∧ (meta !! field = Some (VInt 0) → answer = Ret true)
  ∧ (meta !! field = Some (VBool false) → answer = Ret true).
Proof.
  intros meta answer. subst answer. unfold result. rewrite has_meta_run. simpl.
  fold meta. destruct (meta !! field) as [v|] eqn:E.
  - assert (Hn := ne_str_false v "null").
    destruct (ne_str v "null") eqn:En; repeat split; try done.
    + intros [?|[= ->]]; [done|]. destruct Hn as [_ Hn]. by specialize (Hn eq_refl).
    + intros _. exists v. split; [done|]. intros ->. destruct Hn as [_ Hn].
      by specialize (Hn eq_refl).
    + intros _. right. f_equal. by apply Hn.
    + intros (v' & [= <-] & Hv). destruct Hv. by apply Hn.
    + intros [= ->]. done.
    + intros [= ->]. done.
  - repeat split; try done.
    + intros _; by left.
    + intros (v & ? & _); done.
Qed.

Lemma has_meta_spec_witness :
  result (has_meta Examples.store "Floors" None) Examples.initial = Ret true
  ∧ result (has_meta Examples.store "Heated" None) Examples.initial = Ret true
  ∧ result (has_meta Examples.store "Owner" None) Examples.initial = Ret false
  ∧ result (has_meta Examples.store "Garden" None) Examples.initial = Ret false.
Proof.
  split; [|split; [|split]].
  - pose proof (has_meta_spec Examples.store "Floors" None Examples.initial) as H.
    cbv zeta in H. destruct H as (_ & _ & H & _). apply H. reflexivity.
  - pose proof (has_meta_spec Examples.store "Heated" None Examples.initial) as H.
    cbv zeta in H. destruct H as (_ & _ & _ & H). apply H. reflexivity.
  - pose proof (has_meta_spec Examples.store "Owner" None Examples.initial) as H.
    cbv zeta in H. destruct H as (H & _). apply H. right. reflexivity.
  - pose proof (has_meta_spec Examples.store "Garden" None Examples.initial) as H.
    cbv zeta in H. destruct H as (H & _). apply H. left. reflexivity.
Defined.

(** C8, as the code has it. Without a field name, [None] or the empty
    string, [get_meta] returns the whole metadata mapping.  With a non-empty
    field name it returns the stored value when the key exists, whatever
    the value, and the empty dict when it does not; it never raises. *)
Theorem get_meta_spec (store : Store) (db : option string) (s : state) :
  let meta := store_meta store db in
  result (get_meta store None db) s = Ret (MetaDict meta)
  ∧ result (get_meta store (Some "") db) s = Ret (MetaDict meta)
  ∧ (∀ field v, field ≠ "" → meta !! field = Some v →
       result (get_meta store (Some field) db) s = Ret (MetaValue v))
  ∧ (∀ field, field ≠ "" → meta !! field = None →
       result (get_meta store (Some field) db) s = Ret (MetaDict ∅))
  ∧ (∀ field, ∃ r, result (get_meta store field db) s = Ret r).
Proof.
  intros meta. unfold result. split; [|split; [|split; [|split]]].
  - by rewrite get_meta_run.
  - by rewrite get_meta_run.
  - intros field v Hne Hv. rewrite get_meta_run. simpl. fold meta. rewrite Hv.
    by destruct field.
  - intros field Hne Hv. rewrite get_meta_run. simpl. fold meta. rewrite Hv.
    by destruct field.
  - intros field. rewrite get_meta_run. simpl. eauto.
Qed.

Lemma get_meta_spec_witness :
  result (get_meta Examples.store (Some "Floors") None) Examples.initial
    = Ret (MetaValue (VInt 0))
  ∧ result (get_meta Examples.store (Some "Heated") None) Examples.initial
    = Ret (MetaValue (VBool false))
  ∧ result (get_meta Examples.store (Some "Garden") None) Examples.initial
    = Ret (MetaDict ∅).
Proof.
  pose proof (get_meta_spec Examples.store None Examples.initial) as H.
  cbv zeta in H. destruct H as (_ & _ & Hsome & Hnone & _).
  split; [|split].
  - apply Hsome; [discriminate | reflexivity].
  - apply Hsome; [discriminate | reflexivity].
  - apply Hnone; [discriminate | reflexivity].
Defined.

(** C8 fails for the empty field name. The key [""] exists and holds [1],
    yet [get_meta("")] returns the whole mapping, not [1]; and where the key
    [""] does not exist, [get_meta("")] returns the whole mapping, not the
    empty dict. *)
Lemma get_meta_empty_name :
  store_meta Examples.nameless_store None !! "" = Some (VInt 1)
  ∧ result (get_meta Examples.nameless_store (Some "") None) Examples.initial
    = Ret (MetaDict {[ "" := VInt 1 ]})
  ∧ store_meta Examples.store None !! "" = None
  ∧ result (get_meta Examples.store (Some "") None) Examples.initial
    = Ret (MetaDict {[ "Household m2" := VInt 50; "Owner" := VStr "null";
                       "Floors" := VInt 0; "Heated" := VBool false ]}).
Proof. repeat split. Qed.

(** ** [get_data] *)

(** C9. With [keep_last_only] set, [get_data] is [get_last_value(db)], in
    its value and in its effects: the only store call is [get_last_value],
    no list is touched, and neither [date], [sensors] nor [down_sampling]
    matters.  The branch [data = data[-1:]] is dead code: removing it
    changes [get_data] for no input. *)
Theorem get_data_keep_last_only (store : Store) (db : option string) (s : state) :
  (∀ date sensors down_sampling,
     get_data store date sensors db true down_sampling s = get_last_value store db s)
  ∧ (∀ date sensors down_sampling date' sensors' down_sampling',
       get_data store date sensors db true down_sampling s
       = get_data store date' sensors' db true down_sampling' s)
  ∧ (∀ date sensors down_sampling,
       result (get_data store date sensors db true down_sampling) s
         = Ret (store_last_value store db)
       ∧ final (get_data store date sensors db true down_sampling) s
         = {| heap := heap s; trace := trace s ++ [Get_last_value db] |})
  ∧ (∀ date sensors keep_last_only down_sampling,
       get_data store date sensors db keep_last_only down_sampling s
       = get_data_without_truncation store date sensors db keep_last_only down_sampling s).
Proof.
  repeat split.
  intros date sensors [] down_sampling; reflexivity.
Qed.

Lemma select_effective xs raw_data :
  xs ≠ [] → select (effective xs) raw_data = filter_record (effective xs) <$> raw_data.
Proof.
  intros Hne. unfold select. destruct (effective xs) eqn:E; [|done].
  destruct Hne. by apply effective_nil.
Qed.

Lemma lookup_filter_record xs (r : gmap string value) k v :
  filter_record xs r !! k = Some v ↔ r !! k = Some v ∧ k ∈ xs.
Proof. unfold filter_record. by rewrite map_lookup_filter_Some. Qed.

Lemma dom_filter_record xs (r : gmap string value) :
  dom (filter_record xs r) = dom r ∩ (list_to_set xs : gset string).
Proof.
  apply set_eq; intros k.
  rewrite elem_of_intersection, !elem_of_dom, elem_of_list_to_set.
  unfold is_Some. setoid_rewrite lookup_filter_record. split.
  - intros (v & Hv & Hk). eauto.
  - intros [[v Hv] Hk]. eauto.
Qed.

(** C7. With no sensor list, or an empty one, [get_data] hands back the
    records of the store unchanged, in the same order, and touches no
    list. *)
Theorem get_data_no_sensors (store : Store) (date : option string) (sensors : option loc)
    (db : option string) (down_sampling : bool) (s : state) :
  listed s sensors = [] →
  result (get_data store date sensors db false down_sampling) s
    = Ret {| date := date;
             energy_data := energy_data (store_fetch_data store date db down_sampling) |}
  ∧ heap (final (get_data store date sensors db false down_sampling) s) = heap s.
Proof.
  intros Hnil. unfold result, final. rewrite get_data_run. simpl.
  unfold heap_after. rewrite Hnil. simpl. by destruct sensors.
Qed.

Lemma get_data_no_sensors_witness :
  result (get_data Examples.store (Some "2023-02-27") None None false false) Examples.initial
    = Ret {| date := Some "2023-02-27";
             energy_data := [Examples.record0; Examples.record1] |}
  ∧ result (get_data Examples.store (Some "2023-02-27") (Some Examples.no_sensors)
              None false false) Examples.initial
    = Ret {| date := Some "2023-02-27";
             energy_data := [Examples.record0; Examples.record1] |}.
Proof.
  split.
  - apply (get_data_no_sensors Examples.store (Some "2023-02-27") None None false
             Examples.initial). reflexivity.
  - apply (get_data_no_sensors Examples.store (Some "2023-02-27")
             (Some Examples.no_sensors) None false Examples.initial). reflexivity.
Defined.

(** C6. With a non-empty sensor list [xs] and records that all hold a
    ["timestamp"], the sensors branch of [get_data] returns as many records
    as the store gave, the i-th one made from the i-th one: its keys are the
    record's keys that are in [xs] or are ["timestamp"], its values are the
    record's, and ["timestamp"] is among them whether or not [xs] lists
    it.  No record is dropped. *)
Theorem get_data_filter (store : Store) (date : option string) (l : loc)
    (db : option string) (down_sampling : bool) (s : state) (xs : list string) :
  let raw_data := energy_data (store_fetch_data store date db down_sampling) in
  heap s !! l = Some xs →
  xs ≠ [] →
  Forall (λ r : gmap string value, is_Some (r !! "timestamp")) raw_data →
  ∃ data,
    result (get_data store date (Some l) db false down_sampling) s
      = Ret {| date := date; energy_data := data |}
    ∧ length data = length raw_data
    ∧ ∀ i r, raw_data !! i = Some r →
        ∃ r', data !! i = Some r'
          ∧ dom r' = dom r ∩ ((list_to_set xs : gset string) ∪ {["timestamp"]})
          ∧ (∀ k, k ∈ dom r' → r' !! k = r !! k)
          ∧ is_Some (r' !! "timestamp").
Proof.
  intros raw_data Hl Hne Hts.
  exists (filter_record (effective xs) <$> raw_data). unfold result.
  rewrite get_data_run. simpl. rewrite Hl. simpl. fold raw_data.
  rewrite select_effective by done. split; [done|]. split; [by rewrite length_fmap|].
  intros i r Hi. exists (filter_record (effective xs) r).
  rewrite list_lookup_fmap, Hi. split; [done|].
  assert (Hmem : ∀ k, k ∈ effective xs ↔ k ∈ xs ∨ k = "timestamp")
    by (intros k; by apply elem_of_effective).
  split; [|split].
  - rewrite dom_filter_record. apply set_eq; intros k.
    rewrite !elem_of_intersection, elem_of_union, !elem_of_list_to_set, Hmem.
    by rewrite elem_of_singleton.
  - intros k [v Hv]%elem_of_dom. rewrite Hv. symmetry.
    by apply lookup_filter_record in Hv as [? _].
  - rewrite Forall_forall in Hts. destruct (Hts r) as [v Hv].
    { by eapply list_elem_of_lookup_2. }
    exists v. apply lookup_filter_record. split; [done|]. apply Hmem. by right.
Qed.

Lemma get_data_filter_witness :
  ∃ data,
    result (get_data Examples.store (Some "2023-02-27") (Some Examples.sensors)
              None false false) Examples.initial
      = Ret {| date := Some "2023-02-27"; energy_data := data |}
    ∧ length data = 2%nat
    ∧ ∀ i r, [Examples.record0; Examples.record1] !! i = Some r →
        ∃ r', data !! i = Some r'
          ∧ dom r' = dom r ∩ ((list_to_set ["power"] : gset string) ∪ {["timestamp"]})
          ∧ (∀ k, k ∈ dom r' → r' !! k = r !! k)
          ∧ is_Some (r' !! "timestamp").
Proof.
  apply (get_data_filter Examples.store (Some "2023-02-27") Examples.sensors None false
           Examples.initial ["power"]).
  - reflexivity.
  - discriminate.
  - repeat constructor; eexists; reflexivity.
Defined.

(** ** Calendar facts *)

Module CalendarFacts.
Import Calendar.

Ltac split_valid H :=
  unfold valid_date, MAXYEAR in H; simpl in H;
  repeat (apply andb_prop in H; destruct H as [H ?]);
  repeat match goal with
         | H : (_ <=? _) = true |- _ => apply Z.leb_le in H
         end.

Lemma days_before_year_succ y :
  days_before_year (y + 1) = days_before_year y + 365 + (if is_leap y then 1 else 0).
Proof.
  unfold days_before_year, is_leap. replace (y + 1 - 1) with y by lia.
  destruct (Z.eqb_spec (y mod 4) 0), (Z.eqb_spec (y mod 100) 0),
    (Z.eqb_spec (y mod 400) 0); simpl; Z.div_mod_to_equations; lia.
Qed.

Lemma days_before_year_mono y1 y2 :
  y1 <= y2 → days_before_year y1 <= days_before_year y2.
Proof. unfold days_before_year. intros H. Z.div_mod_to_equations. lia. Qed.

Lemma month_cases m :
  1 <= m <= 12 →
  m = 1 ∨ m = 2 ∨ m = 3 ∨ m = 4 ∨ m = 5 ∨ m = 6 ∨ m = 7 ∨ m = 8 ∨ m = 9
  ∨ m = 10 ∨ m = 11 ∨ m = 12.
Proof. lia. Qed.

Ltac months H := apply month_cases in H; repeat (destruct H as [H|H]); subst.

(** Within a year the day number grows with the month and the day. *)
Lemma day_of_year_bounds y m d :
  1 <= m <= 12 → 1 <= d <= days_in_month y m →
  1 <= days_before_month y m + d <= 365 + (if is_leap y then 1 else 0).
Proof.
  intros Hm Hd. months Hm; unfold days_before_month, days_in_month in *; simpl in *;
    destruct (is_leap y); lia.
Qed.

Lemma day_of_year_lt y m1 d1 m2 d2 :
  1 <= m1 <= 12 → 1 <= m2 <= 12 →
  1 <= d1 <= days_in_month y m1 → 1 <= d2 <= days_in_month y m2 →
  m1 < m2 → days_before_month y m1 + d1 < days_before_month y m2 + d2.
Proof.
  intros Hm1 Hm2 Hd1 Hd2 Hlt.
  months Hm1; months Hm2; try lia;
    unfold days_before_month, days_in_month in *; simpl in *;
    destruct (is_leap y); lia.
Qed.

Lemma strptime_valid s dt : strptime s = Ret dt → valid_date dt = true.
Proof.
  unfold strptime. intros H.
  repeat match type of H with
         | match ?x with _ => _ end = _ => destruct x eqn:?; try discriminate
         | (if ?b then _ else _) = _ => destruct b eqn:?; try discriminate
         | (let (_, _) := ?x in _) = _ => destruct x eqn:?
         end.
  congruence.
Qed.

(** The field-wise comparison is the chronological one. *)
Lemma le_toordinal a b :
  valid_date a = true → valid_date b = true →
  le a b = (toordinal a <=? toordinal b).
Proof.
  intros Ha Hb. destruct a as [ya ma da], b as [yb mb db].
  split_valid Ha. split_valid Hb. unfold le, toordinal. simpl.
  assert (Ba := day_of_year_bounds ya ma da ltac:(lia) ltac:(lia)).
  assert (Bb := day_of_year_bounds yb mb db ltac:(lia) ltac:(lia)).
  destruct (Z.ltb_spec ya yb) as [Hy|Hy]; simpl.
  - symmetry. apply Z.leb_le.
    assert (Hs := days_before_year_succ ya).
    assert (Hm := days_before_year_mono (ya + 1) yb ltac:(lia)). lia.
  - destruct (Z.eqb_spec ya yb) as [->|Hne]; simpl.
    + destruct (Z.ltb_spec ma mb) as [Hm|Hm]; simpl.
      * symmetry. apply Z.leb_le.
        assert (Hlt := day_of_year_lt yb ma da mb db). lia.
      * destruct (Z.eqb_spec ma mb) as [->|Hne]; simpl.
        -- destruct (Z.leb_spec da db); symmetry; [apply Z.leb_le | apply Z.leb_gt]; lia.
        -- symmetry. apply Z.leb_gt.
           assert (Hlt := day_of_year_lt yb mb db ma da). lia.
    + symmetry. apply Z.leb_gt.
      assert (Hs := days_before_year_succ yb).
      assert (Hm := days_before_year_mono (yb + 1) ya ltac:(lia)). lia.
Qed.

Lemma le_antisym a b : le a b = true → le b a = true → a = b.
Proof.
  destruct a as [ya ma da], b as [yb mb db]. unfold le. simpl. intros H1 H2.
  assert (ya = yb ∧ ma = mb ∧ da = db) as (-> & -> & ->); [|done].
  destruct (Z.ltb_spec ya yb), (Z.ltb_spec yb ya), (Z.eqb_spec ya yb),
    (Z.eqb_spec yb ya), (Z.ltb_spec ma mb), (Z.ltb_spec mb ma), (Z.eqb_spec ma mb),
    (Z.eqb_spec mb ma), (Z.leb_spec da db), (Z.leb_spec db da);
    simpl in *; try discriminate; lia.
Qed.

Lemma toordinal_inj a b :
  valid_date a = true → valid_date b = true → toordinal a = toordinal b → a = b.
Proof.
  intros Ha Hb Heq. apply le_antisym.
  - rewrite le_toordinal by done. apply Z.leb_le. lia.
  - rewrite le_toordinal by done. apply Z.leb_le. lia.
Qed.

(** The next day is one day later, and a day of the calendar unless the
    calendar ends. *)
Lemma toordinal_next_day dt :
  valid_date dt = true → toordinal (next_day dt) = toordinal dt + 1.
Proof.
  intros H. destruct dt as [y m d]. split_valid H. unfold next_day, toordinal. simpl.
  destruct (Z.ltb_spec d (days_in_month y m)) as [Hd|Hd]; simpl; [lia|].
  assert (d = days_in_month y m) as -> by lia.
  destruct (Z.ltb_spec m 12) as [Hm|Hm]; simpl.
  - assert (Hm' : 1 <= m <= 12) by lia.
    months Hm'; try lia; unfold days_before_month, days_in_month; simpl;
      destruct (is_leap y); lia.
  - assert (m = 12) as -> by lia. rewrite days_before_year_succ.
    unfold days_before_month, days_in_month. simpl. destruct (is_leap y); lia.
Qed.

Lemma valid_next_day dt :
  valid_date dt = true → dt ≠ max_date → valid_date (next_day dt) = true.
Proof.
  intros H Hne. destruct dt as [y m d]. pose proof H as Hv. split_valid H.
  unfold next_day. simpl.
  destruct (Z.ltb_spec d (days_in_month y m)) as [Hd|Hd]; simpl.
  - unfold valid_date, MAXYEAR. simpl.
    repeat (apply andb_true_intro; split); apply Z.leb_le; lia.
  - assert (d = days_in_month y m) as -> by lia.
    destruct (Z.ltb_spec m 12) as [Hm|Hm]; simpl.
    + unfold valid_date, MAXYEAR. simpl.
      repeat (apply andb_true_intro; split); try (apply Z.leb_le; lia).
      assert (Hm' : 1 <= m <= 12) by lia.
      months Hm'; try lia; unfold days_in_month; simpl; destruct (is_leap y); done.
    + assert (m = 12) as -> by lia. unfold days_in_month in *. simpl in *.
      assert (y ≠ 9999) by (intros ->; by destruct Hne).
      unfold valid_date, MAXYEAR. simpl.
      repeat (apply andb_true_intro; split); apply Z.leb_le; lia.
Qed.

Lemma add_one_day_ok dt :
  valid_date dt = true → dt ≠ max_date → add_one_day dt = Ret (next_day dt).
Proof.
  intros H Hne. unfold add_one_day.
  pose proof (valid_next_day dt H Hne) as Hv. split_valid Hv.
  destruct (Z.leb_spec (year (next_day dt)) MAXYEAR) as [|Hgt]; [done|].
  unfold MAXYEAR in Hgt. lia.
Qed.

Lemma add_one_day_max : add_one_day max_date = Raise OverflowError.
Proof. reflexivity. Qed.

(** *** Writing a date and reading it back *)

Lemma digit_char_code n : nat_of_ascii (digit_char n) = Z.to_nat (48 + n mod 10).
Proof.
  unfold digit_char. apply nat_ascii_embedding.
  assert (0 <= n mod 10 < 10) by (apply Z.mod_pos_bound; lia). lia.
Qed.

Lemma is_digit_digit_char n : is_digit (digit_char n) = true.
Proof.
  unfold is_digit. rewrite digit_char_code.
  assert (0 <= n mod 10 < 10) by (apply Z.mod_pos_bound; lia).
  apply andb_true_intro; split; apply Nat.leb_le; lia.
Qed.

Lemma digit_val_digit_char n : digit_val (digit_char n) = n mod 10.
Proof.
  unfold digit_val. rewrite digit_char_code.
  assert (0 <= n mod 10 < 10) by (apply Z.mod_pos_bound; lia). lia.
Qed.

Lemma parse_month_strftime m rest :
  1 <= m <= 12 →
  parse_month (digit_char (m / 10) :: digit_char m :: "-"%char :: rest) = Some (m, rest).
Proof. intros Hm. months Hm; reflexivity. Qed.

Lemma parse_day_strftime d :
  1 <= d <= 31 → parse_day [digit_char (d / 10); digit_char d] = Some d.
Proof.
  intros Hd. assert (∃ k : nat, d = Z.of_nat (S k) ∧ (k < 31)%nat) as (k & -> & Hk).
  { exists (Z.to_nat (d - 1)). lia. }
  do 31 (destruct k as [|k]; [reflexivity|]). lia.
Qed.

Lemma days_in_month_le y m : days_in_month y m <= 31.
Proof.
  unfold days_in_month.
  repeat match goal with
         | |- context [match ?x with _ => _ end] => destruct x
         end; lia.
Qed.

Lemma strptime_strftime dt : valid_date dt = true → strptime (strftime dt) = Ret dt.
Proof.
  intros Hv. pose proof Hv as H. destruct dt as [y m d]. split_valid H.
  assert (Hd := days_in_month_le y m).
  unfold strptime, strftime. rewrite list_ascii_of_string_of_list_ascii.
  cbv beta iota. rewrite !is_digit_digit_char. cbv beta iota delta [andb].
  cbn [year month day].
  rewrite parse_month_strftime by lia. rewrite parse_day_strftime by lia.
  rewrite !digit_val_digit_char.
  replace (1000 * ((y / 1000) mod 10) + 100 * ((y / 100) mod 10)
           + 10 * ((y / 10) mod 10) + y mod 10) with y
    by (Z.div_mod_to_equations; lia).
  by rewrite Hv.
Qed.

Lemma toordinal_le_max dt :
  valid_date dt = true → toordinal dt <= toordinal max_date.
Proof.
  intros Hv. apply Z.leb_le. rewrite <- le_toordinal by done.
  destruct dt as [y m d]. split_valid Hv. unfold le, max_date. simpl.
  assert (d <= 31).
  { assert (Hm : 1 <= m <= 12) by lia.
    months Hm; unfold days_in_month in *; simpl in *; try lia; destruct (is_leap y); lia. }
  destruct (Z.ltb_spec y 9999), (Z.eqb_spec y 9999), (Z.ltb_spec m 12),
    (Z.eqb_spec m 12), (Z.leb_spec d 31); simpl; try done; lia.
Qed.

Lemma year_le_toordinal a b :
  valid_date a = true → valid_date b = true →
  toordinal a <= toordinal b → year a <= year b.
Proof.
  intros Ha Hb Hle. assert (Hab : le a b = true).
  { rewrite le_toordinal by done. by apply Z.leb_le. }
  unfold le in Hab.
  destruct (Z.ltb_spec (year a) (year b)); [lia|].
  destruct (Z.eqb_spec (year a) (year b)); [lia | done].
Qed.

(** The k-th day after a day of the calendar, as long as the calendar
    lasts. *)
Lemma iter_next_day dt k :
  valid_date dt = true →
  toordinal dt + Z.of_nat k <= toordinal max_date →
  valid_date (Nat.iter k next_day dt) = true
  ∧ toordinal (Nat.iter k next_day dt) = toordinal dt + Z.of_nat k.
Proof.
  intros Hv. induction k as [|k IH]; intros Hk; simpl.
  - split; [done | lia].
  - destruct IH as [IHv IHo]; [lia|].
    split.
    + apply valid_next_day; [done|]. intros Heq. rewrite Heq in IHo. lia.
    + rewrite toordinal_next_day by done. lia.
Qed.

End CalendarFacts.

(** ** The range loop *)

Lemma effective_idem xs : effective (effective xs) = effective xs.
Proof. unfold effective at 1. by rewrite needs_timestamp_effective. Qed.

Lemma length_days now n : length (days now n) = n.
Proof. revert now; induction n as [|n IH]; intros now; simpl; [done|]. by rewrite IH. Qed.

Lemma lookup_days now n k :
  (k < n)%nat → days now n !! k = Some (Nat.iter k Calendar.next_day now).
Proof.
  revert now k; induction n as [|n IH]; intros now k Hk; [lia|].
  destruct k as [|k]; simpl; [done|].
  rewrite IH by lia. f_equal. clear. induction k as [|k IHk]; simpl; [done|].
  by rewrite IHk.
Qed.

Lemma appends_app t1 t2 : appends (t1 ++ t2) = (appends t1 + appends t2)%nat.
Proof. unfold appends. by rewrite filter_app, length_app. Qed.

Section Range.
Import Calendar CalendarFacts.

Context (store : Store) (sensors : option loc) (db : option string)
  (down_sampling : bool).

(* One turn of the loop, when the test [now <= to_dt] holds. *)
Lemma range_loop_step fuel now to_dt acc s :
  le now to_dt = true →
  range_loop store (S fuel) now to_dt sensors db down_sampling acc s =
  let s' := after_get_data s (Some (strftime now)) sensors db down_sampling in
  let acc' := acc ++ [day_entry store (effective (listed s sensors)) db down_sampling now] in
  match add_one_day now with
  | Ret now' => range_loop store fuel now' to_dt sensors db down_sampling acc' s'
  | Raise e => (Raise e, s')
  end.
Proof.
  intros Hle. cbn [range_loop]. rewrite Hle. unfold bind at 1.
  rewrite get_data_run. unfold bind, lift. by destruct (add_one_day now).
Qed.

Lemma range_loop_exit fuel now to_dt acc s :
  le now to_dt = false →
  range_loop store fuel now to_dt sensors db down_sampling acc s = (Ret acc, s).
Proof. intros Hle. destruct fuel; cbn [range_loop]; [done|]. by rewrite Hle. Qed.

(** The loop over a range that ends before the last day of the calendar:
    one entry per day, in order, and one [get_data] call per day. *)
Lemma range_loop_run n : ∀ fuel now to_dt acc s,
  valid_date now = true → valid_date to_dt = true →
  toordinal to_dt < toordinal max_date →
  toordinal to_dt - toordinal now + 1 = Z.of_nat n →
  (n < fuel)%nat →
  range_loop store fuel now to_dt sensors db down_sampling acc s =
  (Ret (acc ++ (day_entry store (effective (listed s sensors)) db down_sampling
                  <$> days now n)),
   after_days s sensors db down_sampling (days now n)).
Proof.
  induction n as [|n IH]; intros fuel now to_dt acc s Hnow Hto Hmax Hn Hfuel.
  - rewrite range_loop_exit; [by rewrite app_nil_r|].
    rewrite le_toordinal by done. apply Z.leb_gt. lia.
  - destruct fuel as [|fuel]; [lia|].
    assert (Hne : now ≠ max_date) by (intros ->; lia).
    rewrite range_loop_step.
    2:{ rewrite le_toordinal by done. apply Z.leb_le. lia. }
    cbv zeta. rewrite add_one_day_ok by done.
    rewrite IH; try done; try lia.
    + rewrite listed_after, effective_idem. simpl. by rewrite <- app_assoc.
    + by apply valid_next_day.
    + rewrite toordinal_next_day by done. lia.
Qed.

(** The loop over a range that ends on the last day of the calendar: after
    the entry of that day, [now += one_day] overflows. *)
Lemma range_loop_overflow n : ∀ fuel now acc s,
  valid_date now = true →
  toordinal max_date - toordinal now = Z.of_nat n →
  (n < fuel)%nat →
  range_loop store fuel now max_date sensors db down_sampling acc s =
  (Raise OverflowError, after_days s sensors db down_sampling (days now (S n))).
Proof.
  induction n as [|n IH]; intros fuel now acc s Hnow Hn Hfuel;
    (destruct fuel as [|fuel]; [lia|]).
  - assert (now = max_date) as -> by (apply toordinal_inj; [done..|lia]).
    rewrite range_loop_step by done. by rewrite add_one_day_max.
  - assert (Hne : now ≠ max_date) by (intros ->; lia).
    rewrite range_loop_step.
    2:{ rewrite le_toordinal by done. apply Z.leb_le. lia. }
    cbv zeta. rewrite add_one_day_ok by done.
    rewrite IH; try done; try lia.
    + by apply valid_next_day.
    + rewrite toordinal_next_day by done. lia.
Qed.

(** More fuel than the days of the range changes nothing. *)
Lemma range_loop_fuel fuel1 fuel2 now to_dt acc s :
  valid_date now = true → valid_date to_dt = true →
  (Z.to_nat (toordinal to_dt - toordinal now + 1) < fuel1)%nat →
  (Z.to_nat (toordinal to_dt - toordinal now + 1) < fuel2)%nat →
  range_loop store fuel1 now to_dt sensors db down_sampling acc s
  = range_loop store fuel2 now to_dt sensors db down_sampling acc s.
Proof.
  intros Hnow Hto H1 H2.
  destruct (Z.lt_ge_cases (toordinal to_dt) (toordinal now)) as [Hlt|Hge].
  - rewrite !range_loop_exit; [done|..];
      rewrite le_toordinal by done; apply Z.leb_gt; lia.
  - destruct (Z.eq_dec (toordinal to_dt) (toordinal max_date)) as [Heq|Hne].
    + assert (to_dt = max_date) as -> by (by apply toordinal_inj).
      rewrite !(range_loop_overflow (Z.to_nat (toordinal max_date - toordinal now)));
        [done|..]; try done; lia.
    + assert (Hmax := toordinal_le_max _ Hto).
      rewrite !(range_loop_run (Z.to_nat (toordinal to_dt - toordinal now + 1)));
        [done|..]; try done; lia.
Qed.

(** Whatever the dates, the loop appends to the caller's list at most once,
    and then in its first turn. *)
Lemma range_loop_appends fuel : ∀ now to_dt acc s,
  let s' := final (range_loop store fuel now to_dt sensors db down_sampling acc) s in
  ∃ evs, trace s' = trace s ++ evs
    ∧ ((heap s' = heap s ∧ appends evs = 0%nat)
       ∨ (needs_timestamp (listed s sensors) = true
          ∧ heap s' = heap_after s sensors ∧ appends evs = 1%nat)).
Proof.
  induction fuel as [|fuel IH]; intros now to_dt acc s; unfold final.
  - exists []. simpl. rewrite app_nil_r. split; [done | by left].
  - destruct (le now to_dt) eqn:Hle.
    2:{ rewrite range_loop_exit by done. exists []. simpl. rewrite app_nil_r.
        split; [done | by left]. }
    rewrite range_loop_step by done. cbv zeta.
    set (s1 := after_get_data s (Some (strftime now)) sensors db down_sampling).
    assert (Hs1 : ∃ evs, trace s1 = trace s ++ evs
      ∧ ((heap s1 = heap s ∧ appends evs = 0%nat)
         ∨ (needs_timestamp (listed s sensors) = true
            ∧ heap s1 = heap_after s sensors ∧ appends evs = 1%nat))).
    { eexists. split; [reflexivity|]. unfold s1, after_get_data, heap_after, appended.
      simpl. destruct sensors as [l|]; [|by left].
      destruct (needs_timestamp (listed s (Some l))); [by right | by left]. }
    destruct (add_one_day now) as [now'|e]; [|done].
    specialize (IH now' to_dt
      (acc ++ [day_entry store (effective (listed s sensors)) db down_sampling now]) s1).
    unfold final in IH. cbv zeta in IH.
    destruct IH as (evs2 & Ht2 & [[Hh2 Ha2]|(Hneeds & _)]).
    2:{ unfold s1 in Hneeds. by rewrite listed_after, needs_timestamp_effective in Hneeds. }
    destruct Hs1 as (evs1 & Ht1 & Hcase).
    exists (evs1 ++ evs2). rewrite Ht2, Ht1, app_assoc. split; [done|].
    rewrite Hh2, appends_app, Ha2, Nat.add_0_r. done.
Qed.

End Range.

(** ** [get_range_data] *)

Section Range_data.
Import Calendar CalendarFacts.

Lemma get_range_data_run store from_date to_date sensors db down_sampling s from_dt to_dt :
  strptime from_date = Ret from_dt →
  strptime to_date = Ret to_dt →
  get_range_data store from_date to_date sensors db down_sampling s =
  match range_loop store (S (Z.to_nat (toordinal to_dt - toordinal from_dt + 1)))
          from_dt to_dt sensors db down_sampling [] s with
  | (Ret range_data, s') =>
      (Ret {| from_date := from_date; to_date := to_date; range_data := range_data |}, s')
  | (Raise e, s') => (Raise e, s')
  end.
Proof.
  intros Hf Ht. unfold get_range_data, bind, lift. rewrite Hf, Ht.
  by destruct (range_loop _ _ _ _ _ _ _ _ _) as [[]].
Qed.

(** C1, as the code has it. When [to_date] is chronologically before
    [from_date], [get_range_data] raises nothing: it returns the result with
    an empty [range_data], having called the store for no day and touched
    no list. *)
Theorem get_range_data_inverted (store : Store) (from_date to_date : string)
    (sensors : option loc) (db : option string) (down_sampling : bool) (s : state)
    (from_dt to_dt : datetime) :
  strptime from_date = Ret from_dt →
  strptime to_date = Ret to_dt →
  toordinal to_dt < toordinal from_dt →
  get_range_data store from_date to_date sensors db down_sampling s
  = (Ret {| from_date := from_date; to_date := to_date; range_data := [] |}, s).
Proof.
  intros Hf Ht Hlt. rewrite (get_range_data_run _ _ _ _ _ _ _ from_dt to_dt) by done.
  rewrite range_loop_exit; [done|].
  rewrite le_toordinal by (by eapply strptime_valid). apply Z.leb_gt. lia.
Qed.

Lemma get_range_data_inverted_witness :
  get_range_data Examples.store "2023-03-01" "2023-02-27" (Some Examples.sensors) None false
    Examples.initial
  = (Ret {| from_date := "2023-03-01"; to_date := "2023-02-27"; range_data := [] |},
     Examples.initial).
Proof.
  apply (get_range_data_inverted Examples.store "2023-03-01" "2023-02-27"
           (Some Examples.sensors) None false Examples.initial
           {| year := 2023; month := 3; day := 1 |}
           {| year := 2023; month := 2; day := 27 |}).
  - reflexivity.
  - reflexivity.
  - vm_compute. reflexivity.
Defined.

(** C1 fails: for the range from 2023-03-01 back to 2023-02-27 the call
    returns a result, with no entry in [range_data]; nothing is raised. *)
Lemma get_range_data_inverted_returns :
  result (get_range_data Examples.store "2023-03-01" "2023-02-27" None None false)
    Examples.initial
  = Ret {| from_date := "2023-03-01"; to_date := "2023-02-27"; range_data := [] |}.
Proof. vm_compute. reflexivity. Qed.

(** X1. The range that starts in the year 1000 or later and ends before
    9999-12-31: [get_range_data] returns one entry per calendar day from
    [from_date] to [to_date], both included, in chronological order.  The
    k-th entry is what [get_data] builds for the k-th day after [from_date],
    a day of the year 1000 or later, and is dated with that day: its date
    reads back as that day.  A range of one day has one entry, a range that
    ends three days after its start has four. *)
Theorem get_range_data_days (store : Store) (from_date to_date : string)
    (sensors : option loc) (db : option string) (down_sampling : bool) (s : state)
    (from_dt to_dt : datetime) :
  strptime from_date = Ret from_dt →
  strptime to_date = Ret to_dt →
  1000 <= year from_dt →
  toordinal from_dt <= toordinal to_dt →
  toordinal to_dt < toordinal max_date →
  let n := Z.to_nat (toordinal to_dt - toordinal from_dt + 1) in
  ∃ entries,
    result (get_range_data store from_date to_date sensors db down_sampling) s
      = Ret {| from_date := from_date; to_date := to_date; range_data := entries |}
    ∧ length entries = n
    ∧ ∀ k, (k < n)%nat →
        let d := Nat.iter k next_day from_dt in
        toordinal d = toordinal from_dt + Z.of_nat k
        ∧ 1000 <= year d
        ∧ strptime (strftime d) = Ret d
        ∧ entries !! k
          = Some (day_entry store (effective (listed s sensors)) db down_sampling d)
        ∧ date <$> entries !! k = Some (Some (strftime d)).
Proof.
  intros Hf Ht Hyear Hle Hmax n.
  assert (Hvf := strptime_valid _ _ Hf). assert (Hvt := strptime_valid _ _ Ht).
  exists (day_entry store (effective (listed s sensors)) db down_sampling
            <$> days from_dt n).
  unfold result. rewrite (get_range_data_run _ _ _ _ _ _ _ from_dt to_dt) by done.
  fold n. rewrite (range_loop_run _ _ _ _ n) by (try done; lia). simpl.
  split; [done|]. split; [by rewrite length_fmap, length_days|].
  intros k Hk. rewrite list_lookup_fmap, lookup_days by done. simpl.
  destruct (iter_next_day from_dt k Hvf) as [Hvk Hok]; [lia|].
  split; [done|]. split.
  { assert (Hy := year_le_toordinal from_dt _ Hvf Hvk). lia. }
  split; [by apply strptime_strftime | done].
Qed.

Lemma get_range_data_days_witness :
  ∃ entries,
    result (get_range_data Examples.store "2023-02-27" "2023-03-02"
              (Some Examples.sensors) None false) Examples.initial
      = Ret {| from_date := "2023-02-27"; to_date := "2023-03-02"; range_data := entries |}
    ∧ length entries = 4%nat
    ∧ ∀ k, (k < 4)%nat →
        let d := Nat.iter k next_day {| year := 2023; month := 2; day := 27 |} in
        toordinal d = 738578 + Z.of_nat k
        ∧ 1000 <= year d
        ∧ strptime (strftime d) = Ret d
        ∧ entries !! k
          = Some (day_entry Examples.store ["power"; "timestamp"] None false d)
        ∧ date <$> entries !! k = Some (Some (strftime d)).
Proof.
  apply (get_range_data_days Examples.store "2023-02-27" "2023-03-02"
           (Some Examples.sensors) None false Examples.initial
           {| year := 2023; month := 2; day := 27 |}
           {| year := 2023; month := 3; day := 2 |}).
  - reflexivity.
  - reflexivity.
  - vm_compute. discriminate.
  - vm_compute. discriminate.
  - vm_compute. reflexivity.
Defined.

(** The dates of a range of four days, and of a range of one. *)
Example get_range_data_four_days :
  match result (get_range_data Examples.store "2023-02-27" "2023-03-02" None None false)
          Examples.initial with
  | Ret r => Some (date <$> range_data r)
  | Raise _ => None
  end
  = Some [Some "2023-02-27"; Some "2023-02-28"; Some "2023-03-01"; Some "2023-03-02"].
Proof. vm_compute. reflexivity. Qed.

(** C3 at the end of the calendar. The range made of the single day
    9999-12-31 yields no result: after the entry of that day is appended,
    [now += one_day] raises [OverflowError].  So does every range that ends
    on 9999-12-31. *)
Theorem get_range_data_last_day (store : Store) (sensors : option loc)
    (db : option string) (down_sampling : bool) (s : state) :
  result (get_range_data store "9999-12-31" "9999-12-31" sensors db down_sampling) s
    = Raise OverflowError
  ∧ ∀ from_date from_dt,
      strptime from_date = Ret from_dt →
      result (get_range_data store from_date "9999-12-31" sensors db down_sampling) s
        = Raise OverflowError.
Proof.
  assert (Hall : ∀ from_date from_dt,
      strptime from_date = Ret from_dt →
      result (get_range_data store from_date "9999-12-31" sensors db down_sampling) s
        = Raise OverflowError).
  { intros from_date from_dt Hf. assert (Hv := strptime_valid _ _ Hf).
    assert (Hmax := toordinal_le_max _ Hv). unfold result.
    rewrite (get_range_data_run _ _ _ _ _ _ _ from_dt max_date) by done.
    rewrite (range_loop_overflow _ _ _ _
               (Z.to_nat (toordinal max_date - toordinal from_dt))); [done..| |]; lia. }
  split; [|done]. by apply (Hall _ max_date).
Qed.

End Range_data.

(** ** The caller's sensor list *)

(** C10, as the code has it. A [get_data] call that does not keep the last
    value only appends ["timestamp"] to the caller's list, in place, when the
    list is non-empty and lacks it, and leaves every list alone otherwise;
    with [keep_last_only] set, [get_data] touches no list.  [get_range_data]
    passes the same list to every day's call, so the whole range appends at
    most once. *)
Theorem sensors_mutation (store : Store) (l : loc) (xs : list string) (s : state) :
  heap s !! l = Some xs →
  (∀ date db down_sampling,
     let s' := final (get_data store date (Some l) db false down_sampling) s in
     (xs ≠ [] → "timestamp" ∉ xs →
        heap s' = <[l := xs ++ ["timestamp"]]> (heap s)
        ∧ appends (trace s') = S (appends (trace s)))
     ∧ (xs = [] ∨ "timestamp" ∈ xs → heap s' = heap s))
  ∧ (∀ date db down_sampling,
       heap (final (get_data store date None db false down_sampling) s) = heap s)
  ∧ (∀ date sensors db down_sampling,
       heap (final (get_data store date sensors db true down_sampling) s) = heap s)
  ∧ (∀ from_date to_date db down_sampling,
       let s' := final (get_range_data store from_date to_date (Some l) db down_sampling) s in
       ∃ evs, trace s' = trace s ++ evs
         ∧ (appends evs <= 1)%nat
         ∧ (heap s' = heap s
            ∨ (xs ≠ [] ∧ ("timestamp" ∉ xs)
               ∧ heap s' = <[l := xs ++ ["timestamp"]]> (heap s)))).
Proof.
  intros Hl. split; [|split; [|split]].
  - intros date db down_sampling s'. subst s'. unfold final. rewrite get_data_run.
    simpl. rewrite Hl. simpl. split.
    + intros Hne Hts. rewrite (proj2 (needs_timestamp_true xs)) by done.
      split; [done|]. rewrite appends_app. unfold appends at 2. simpl. lia.
    + intros Hno. by rewrite (proj2 (needs_timestamp_false xs)).
  - intros date db down_sampling. unfold final. by rewrite get_data_run.
  - done.
  - intros from_date to_date db down_sampling s'. subst s'.
    unfold final, get_range_data, bind, lift.
    destruct (Calendar.strptime from_date) as [from_dt|e].
    2:{ exists []. simpl. rewrite app_nil_r. split; [done|].
        split; [unfold appends; simpl; lia | by left]. }
    destruct (Calendar.strptime to_date) as [to_dt|e].
    2:{ exists []. simpl. rewrite app_nil_r. split; [done|].
        split; [unfold appends; simpl; lia | by left]. }
    set (fuel := S _).
    destruct (range_loop_appends store (Some l) db down_sampling fuel from_dt to_dt [] s)
      as (evs & Ht & Hcase).
    unfold final in Ht, Hcase.
    destruct (range_loop _ _ _ _ _ _ _ _ _) as [[entries|e] s']; simpl in *;
      exists evs; (split; [done|]);
      (destruct Hcase as [[Hh Ha]|(Hneeds & Hh & Ha)];
       [split; [lia | by left]
       |split; [lia|]; right; rewrite Hl in Hneeds, Hh; simpl in Hneeds, Hh;
        rewrite Hneeds in Hh; by apply needs_timestamp_true in Hneeds as [? ?]]).
Qed.

Lemma sensors_mutation_witness :
  heap (final (get_data Examples.store (Some "2023-02-27") (Some Examples.sensors) None
                 false false) Examples.initial)
  = <[Examples.sensors := ["power"; "timestamp"]]> (heap Examples.initial).
Proof.
  pose proof (sensors_mutation Examples.store Examples.sensors ["power"] Examples.initial
                eq_refl) as (H & _).
  specialize (H (Some "2023-02-27") None false). cbv zeta in H.
  destruct H as [H _]. apply H.
  - discriminate.
  - intros Hin. by repeat (apply elem_of_cons in Hin as [Hin|Hin]; [discriminate|];
                           try apply elem_of_nil in Hin).
Defined.

(** C10 fails when [keep_last_only] is set: the caller's list [["power"]] is
    non-empty and lacks ["timestamp"], and is the same after the call. *)
Lemma get_data_keeps_sensors :
  heap Examples.initial !! Examples.sensors = Some ["power"]
  ∧ heap (final (get_data Examples.store (Some "2023-02-27") (Some Examples.sensors) None
                   true false) Examples.initial) !! Examples.sensors
    = Some ["power"].
Proof. split; reflexivity. Qed.

(** ** Daily consumption *)

Lemma first_valid_Some l a : first_valid l = Some a ↔ FirstValid l a.
Proof.
  split.
  - induction l as [|r l IH]; [done|]. intros H.
    destruct r as [| |t|x]; simpl in H;
      try (destruct (IH H) as (pre & rest & -> & Hpre);
           eexists (_ :: pre), rest; split; [done | by constructor]).
    injection H as ->. exists [], l. by split.
  - intros (pre & rest & -> & Hpre).
    induction Hpre as [|r pre Hr _ IH]; [done|].
    by destruct r.
Qed.

Lemma first_valid_None l : first_valid l = None ↔ Forall (λ r, valid r = false) l.
Proof.
  induction l as [|r l IH]; simpl.
  - split; [by constructor | done].
  - destruct r; simpl; rewrite ?IH, Forall_cons; try (split; [done | by intros [_ ?]]).
    split; [done | by intros [? _]].
Qed.

Lemma last_valid_Some l b : last_valid l = Some b ↔ LastValid l b.
Proof.
  unfold last_valid. rewrite first_valid_Some. split.
  - intros (pre & rest & Hl & Hpre). exists (reverse rest), (reverse pre). split.
    + apply (f_equal reverse) in Hl. rewrite reverse_involutive in Hl.
      rewrite Hl, reverse_app, reverse_cons, <- app_assoc. done.
    + by apply Forall_reverse.
  - intros (rest & post & -> & Hpost). exists (reverse post), (reverse rest). split.
    + by rewrite reverse_app, reverse_cons, <- app_assoc.
    + by apply Forall_reverse.
Qed.

Lemma last_valid_None l : last_valid l = None ↔ Forall (λ r, valid r = false) l.
Proof. unfold last_valid. by rewrite first_valid_None, Forall_reverse. Qed.

(** C2. [get_date_consumption] raises nothing and returns the estimate of the
    day, bare or wrapped with its unit.  For a day of raw readings the
    estimate is the last valid reading minus the first valid one, the first
    found past any invalid readings at the start and the last before any at
    the end; when no reading is valid it is the unavailable indicator. *)
Theorem daily_consumption_estimate (store : Store) (date : string) (simplify : bool)
    (db : option string) (s : state) (l : list reading) :
  store_day_view store date db = Readings l →
  let c := estimate (Readings l) in
  result (get_date_consumption store date simplify db) s
    = Ret (if simplify then Simplified c else Detailed c "kwh")
  ∧ (∀ a b, FirstValid l a → LastValid l b → c = Value (b - a)%float)
  ∧ (Forall (λ r, valid r = false) l → c = Unavailable)
  ∧ ((∃ a b, FirstValid l a ∧ LastValid l b) ∨ Forall (λ r, valid r = false) l).
Proof.
  intros Hview c. split; [|split; [|split]].
  - unfold result, get_date_consumption, get_view_daily_consumption. run.
    by rewrite Hview.
  - intros a b Ha%first_valid_Some Hb%last_valid_Some. subst c. simpl.
    by rewrite Ha, Hb.
  - intros Hall%first_valid_None. subst c. simpl. by rewrite Hall.
  - destruct (first_valid l) as [a|] eqn:Ha.
    + destruct (last_valid l) as [b|] eqn:Hb.
      * left. exists a, b. by rewrite <- first_valid_Some, <- last_valid_Some.
      * right. by apply last_valid_None.
    + right. by apply first_valid_None.
Qed.

Lemma daily_consumption_estimate_witness :
  result (get_date_consumption Examples.scenario_store "2023-02-27" true None) Examples.initial
    = Ret (Simplified (Value 15))
  ∧ estimate (Readings [Null; Number 10; Null; Number 25]) = Value (25 - 10)%float.
Proof.
  pose proof (daily_consumption_estimate Examples.scenario_store "2023-02-27" true None
                Examples.initial [Null; Number 10; Null; Number 25] eq_refl) as H.
  cbv zeta in H. destruct H as (Hrun & Hdiff & _). split.
  - exact Hrun.
  - apply Hdiff.
    + exists [Null], [Null; Number 25]. split; [reflexivity | repeat constructor].
    + exists [Null; Number 10; Null], []. split; [reflexivity | constructor].
Defined.

(** ** Normalized consumption *)

Lemma get_mean_consumption_run store date db s :
  result (get_mean_consumption store date db) s =
  match store_meta store db !! "Household m2" with
  | None => Ret (VInt (-1))
  | Some v =>
      if ne_str v "null" then
        match PyFloat.of_value v with
        | Ret size =>
            if PyFloat.truthy size
            then truediv store (Simplified (estimate (store_day_view store date db))) size
            else Ret (VInt (-1))
        | Raise e => Raise e
        end
      else Ret (VInt (-1))
  end.
Proof.
  unfold result, get_mean_consumption, get_date_consumption, get_view_daily_consumption.
  unfold bind at 1 2 3. unfold emit at 1, ret at 1 2. simpl.
  unfold bind at 1. rewrite has_meta_run.
  destruct (store_meta store db !! "Household m2") as [v|] eqn:E; [|done].
  destruct (ne_str v "null"); [|done].
  unfold bind at 1. rewrite get_meta_run. simpl. rewrite E. run.
  destruct (PyFloat.of_value v) as [size|e]; [|done]. simpl.
  by destruct (PyFloat.truthy size).
Qed.

Lemma ne_str_true v s : v ≠ VStr s → ne_str v s = true.
Proof.
  intros Hv. destruct (ne_str v s) eqn:E; [done|]. by apply ne_str_false in E.
Qed.

(** [float()] raises [ValueError] on text, [TypeError] on [None] and
    [OverflowError] on an integer: never [ZeroDivisionError]. *)
Lemma of_str_raises t e : PyFloat.of_str t = Raise e → e = ValueError.
Proof.
  unfold PyFloat.of_str. intros H.
  repeat match type of H with
         | match ?x with _ => _ end = _ => destruct x; try discriminate
         | (if ?b then _ else _) = _ => destruct b; try discriminate
         | (let (_, _) := ?x in _) = _ => destruct x
         end; congruence.
Qed.

Lemma of_value_raises v e : PyFloat.of_value v = Raise e → e ≠ ZeroDivisionError.
Proof.
  destruct v as [| |z|x|t]; simpl; intros H; try congruence.
  - unfold PyFloat.of_int in H. destruct (PrimFloat.eqb _ _); congruence.
  - apply of_str_raises in H. congruence.
Qed.

(** C4 at a size that is no number. The docstring promises [-1] for a
    building without appropriate information, and the claim a result; but
    [float()] is applied unguarded: when ["Household m2"] holds a text other
    than ["null"] that [float()] rejects, such as ["unknown"], the call
    raises [ValueError]. *)
Theorem get_mean_consumption_unguarded (store : Store) (date : string)
    (db : option string) (s : state) (t : string) (e : exn) :
  store_meta store db !! "Household m2" = Some (VStr t) →
  t ≠ "null" →
  is_ascii t = true →
  PyFloat.of_str t = Raise e →
  result (get_mean_consumption store date db) s = Raise ValueError.
Proof.
  intros Hm Hnull _ Hraise. rewrite get_mean_consumption_run, Hm.
  rewrite ne_str_true by congruence. simpl. rewrite Hraise.
  by rewrite (of_str_raises _ _ Hraise).
Qed.

Lemma get_mean_consumption_unguarded_witness :
  result (get_mean_consumption Examples.unsized_store "2023-02-27" None) Examples.initial
  = Raise ValueError.
Proof.
  apply (get_mean_consumption_unguarded Examples.unsized_store "2023-02-27" None
           Examples.initial "unknown" ValueError).
  - reflexivity.
  - discriminate.
  - reflexivity.
  - vm_compute. reflexivity.
Defined.

(** X12. What [get_mean_consumption] does where it returns. It returns
    [-1] when the field ["Household m2"] is absent, when it holds the string
    ["null"], and when [float()] makes zero of it.  When [float()] makes a
    non-zero [size] of it, the result is the float quotient of the day's
    simplified consumption by [size].  A division by zero never happens. *)
Theorem get_mean_consumption_spec (store : Store) (date : string) (db : option string)
    (s : state) :
  let meta := store_meta store db in
  let kwh := as_float store (estimate (store_day_view store date db)) in
  let r := result (get_mean_consumption store date db) s in
  (meta !! "Household m2" = None → r = Ret (VInt (-1)))
  ∧ (meta !! "Household m2" = Some (VStr "null") → r = Ret (VInt (-1)))
  ∧ (∀ v size, meta !! "Household m2" = Some v → v ≠ VStr "null" →
       PyFloat.of_value v = Ret size → PrimFloat.eqb size 0 = true →
       r = Ret (VInt (-1)))
  ∧ (∀ v size, meta !! "Household m2" = Some v → v ≠ VStr "null" →
       PyFloat.of_value v = Ret size → PrimFloat.eqb size 0 = false →
       r = Ret (VFloat (kwh / size)))
  ∧ (∀ c, estimate (store_day_view store date db) = Value c → kwh = c)
  ∧ ((∀ v, meta !! "Household m2" = Some v → ascii_value v = true) →
     r ≠ Raise ZeroDivisionError).
Proof.
  intros meta kwh r. subst r kwh. rewrite get_mean_consumption_run. fold meta.
  split; [|split; [|split; [|split; [|split]]]].
  - by intros ->.
  - by intros ->.
  - intros v size -> Hv -> Hz. rewrite (ne_str_true v _ Hv). unfold PyFloat.truthy.
    by rewrite Hz.
  - intros v size -> Hv -> Hz. rewrite (ne_str_true v _ Hv).
    unfold PyFloat.truthy, truediv. by rewrite Hz.
  - by intros c ->.
  - intros _. destruct (meta !! "Household m2") as [v|]; [|done].
    destruct (ne_str v "null"); [|done].
    destruct (PyFloat.of_value v) as [size|e] eqn:Ef.
    + unfold PyFloat.truthy, truediv.
      by destruct (PrimFloat.eqb size 0) eqn:Hz.
    + intros [= ->]. by apply of_value_raises in Ef.
Qed.

(** Consumption 12.5 kWh over 50 square metres. *)
Lemma get_mean_consumption_spec_witness :
  result (get_mean_consumption Examples.store "2023-02-27" None) Examples.initial
  = Ret (VFloat 0.25).
Proof.
  pose proof (get_mean_consumption_spec Examples.store "2023-02-27" None Examples.initial)
    as H.
  cbv zeta in H. destruct H as (_ & _ & _ & H & _).
  apply (H (VInt 50) 50%float).
  - reflexivity.
  - discriminate.
  - vm_compute. reflexivity.
  - reflexivity.
Defined.

(** * Further properties of the code *)

(** ** [get_data]: repeated calls, and what the filter depends on *)

(** X2. A second [get_data] call with the same arguments, made in the state
    the first call left, returns what the first returned and leaves every
    list as the first call left it: an append happens in the first call or
    never. *)
Theorem get_data_twice (store : Store) (date : option string) (sensors : option loc)
    (db : option string) (down_sampling : bool) (s : state) :
  let call := get_data store date sensors db false down_sampling in
  result call (final call s) = result call s
  ∧ heap (final call (final call s)) = heap (final call s)
  ∧ appends (trace (final call (final call s))) = appends (trace (final call s)).
Proof.
  intros call. subst call. unfold result, final. rewrite !get_data_run. cbn [fst snd].
  rewrite listed_after, effective_idem. split; [done|].
  set (s1 := after_get_data s date sensors db down_sampling).
  assert (Hno : needs_timestamp (listed s1 sensors) = false).
  { unfold s1. by rewrite listed_after, needs_timestamp_effective. }
  unfold after_get_data at 1 2. cbn [heap trace]. unfold heap_after, appended.
  rewrite Hno. split; [by destruct sensors|].
  rewrite appends_app. unfold appends at 2. simpl.
  destruct sensors; simpl; lia.
Qed.

Lemma filter_record_ext xs ys (r : gmap string value) :
  (∀ k, k ∈ xs ↔ k ∈ ys) → filter_record xs r = filter_record ys r.
Proof.
  intros Hsame. apply map_eq; intros k. apply option_eq; intros v.
  rewrite !lookup_filter_record. by rewrite Hsame.
Qed.

Lemma select_ext xs ys raw_data :
  (∀ k, k ∈ xs ↔ k ∈ ys) → select xs raw_data = select ys raw_data.
Proof.
  intros Hsame. destruct xs as [|x xs], ys as [|y ys]; simpl.
  - done.
  - pose proof (proj2 (Hsame y) ltac:(by left)) as H. by apply elem_of_nil in H.
  - pose proof (proj1 (Hsame x) ltac:(by left)) as H. by apply elem_of_nil in H.
  - apply list_fmap_ext; intros i r _. by apply filter_record_ext.
Qed.

Lemma effective_ext xs ys :
  (∀ k, k ∈ xs ↔ k ∈ ys) → ∀ k, k ∈ effective xs ↔ k ∈ effective ys.
Proof.
  intros Hsame k. destruct xs as [|x xs], ys as [|y ys].
  - done.
  - pose proof (proj2 (Hsame y) ltac:(by left)) as H. by apply elem_of_nil in H.
  - pose proof (proj1 (Hsame x) ltac:(by left)) as H. by apply elem_of_nil in H.
  - rewrite !elem_of_effective by done. by rewrite Hsame.
Qed.

(** X3. The data [get_data] returns depend on the sensor list only through
    the set of its elements: two lists with the same elements, in whatever
    order and however often repeated, give the same result. *)
Theorem get_data_sensor_set (store : Store) (date : option string) (l1 l2 : loc)
    (xs ys : list string) (db : option string) (down_sampling : bool) (s : state) :
  heap s !! l1 = Some xs →
  heap s !! l2 = Some ys →
  (∀ k, k ∈ xs ↔ k ∈ ys) →
  result (get_data store date (Some l1) db false down_sampling) s
  = result (get_data store date (Some l2) db false down_sampling) s.
Proof.
  intros H1 H2 Hsame. unfold result. rewrite !get_data_run. simpl.
  rewrite H1, H2. simpl. f_equal. f_equal.
  by apply select_ext, effective_ext.
Qed.

Lemma get_data_sensor_set_witness :
  result (get_data Examples.store (Some "2023-02-27") (Some Examples.sensors) None
            false false) MoreExamples.initial
  = result (get_data Examples.store (Some "2023-02-27") (Some MoreExamples.shuffled) None
              false false) MoreExamples.initial.
Proof.
  apply (get_data_sensor_set Examples.store (Some "2023-02-27") Examples.sensors
           MoreExamples.shuffled ["power"; "kwh"] ["kwh"; "power"; "kwh"] None false
           MoreExamples.initial).
  - reflexivity.
  - reflexivity.
  - intros k. rewrite !elem_of_cons, !elem_of_nil. tauto.
Defined.

(** X4. The filter only removes keys. Whatever the sensor list and the
    records, [get_data] returns one record per record of the store, each a
    part of the one it comes from: no key or value is invented, so a record
    without ["timestamp"] comes out without it, and a record with none of
    the kept keys comes out as the empty dict, not dropped. *)
Theorem get_data_only_removes (store : Store) (date : option string)
    (sensors : option loc) (db : option string) (down_sampling : bool) (s : state) :
  let raw_data := energy_data (store_fetch_data store date db down_sampling) in
  ∃ data,
    result (get_data store date sensors db false down_sampling) s
      = Ret {| date := date; energy_data := data |}
    ∧ length data = length raw_data
    ∧ ∀ i r, raw_data !! i = Some r →
        ∃ r', data !! i = Some r'
          ∧ r' ⊆ r
          ∧ (r !! "timestamp" = None → r' !! "timestamp" = None)
          ∧ (listed s sensors ≠ [] →
             (∀ k, k ∈ listed s sensors ∨ k = "timestamp" → r !! k = None) → r' = ∅).
Proof.
  intros raw_data. eexists. unfold result. rewrite get_data_run. simpl. fold raw_data.
  split; [done|].
  destruct (listed s sensors) as [|x xs] eqn:Hl.
  - simpl. split; [done|]. intros i r Hi. exists r. split; [done|].
    split; [done|]. split; [done|]. done.
  - rewrite select_effective by done. split; [by rewrite length_fmap|].
    intros i r Hi. exists (filter_record (effective (x :: xs)) r).
    rewrite list_lookup_fmap, Hi. split; [done|].
    assert (Hsub : filter_record (effective (x :: xs)) r ⊆ r)
      by apply map_filter_subseteq.
    split; [done|]. split.
    + intros Hnone. by eapply lookup_weaken_None.
    + intros _ Hnokey. apply map_empty; intros k.
      destruct (filter_record _ r !! k) as [v|] eqn:Hk; [|done].
      apply lookup_filter_record in Hk as [Hk Hin].
      apply elem_of_effective in Hin; [|done]. rewrite Hnokey in Hk; done.
Qed.

Lemma get_data_only_removes_witness :
  ∃ data,
    result (get_data MoreExamples.bare_store (Some "2023-02-27") (Some Examples.sensors)
              None false false) Examples.initial
      = Ret {| date := Some "2023-02-27"; energy_data := data |}
    ∧ data !! 0%nat = Some {[ "power" := VInt 1 ]}
    ∧ data !! 1%nat = Some ∅.
Proof.
  pose proof (get_data_only_removes MoreExamples.bare_store (Some "2023-02-27")
                (Some Examples.sensors) None false Examples.initial) as H.
  cbv zeta in H. destruct H as (data & Hres & _ & _).
  exists data. split; [exact Hres|].
  unfold result in Hres. rewrite get_data_run in Hres. simpl in Hres.
  injection Hres as <-. split; reflexivity.
Defined.

(** ** [get_range_data]: rejected dates, store calls, and splitting a range *)

Section Range_more.
Import Calendar CalendarFacts.

Lemma strptime_raises text e : strptime text = Raise e → e = ValueError.
Proof.
  unfold strptime. intros H.
  repeat match type of H with
         | match ?x with _ => _ end = _ => destruct x; try discriminate
         | (if ?b then _ else _) = _ => destruct b; try discriminate
         | (let (_, _) := ?x in _) = _ => destruct x
         end; congruence.
Qed.

Lemma days_app now n1 n2 :
  days now (n1 + n2) = days now n1 ++ days (Nat.iter n1 next_day now) n2.
Proof.
  revert now; induction n1 as [|n1 IH]; intros now; [done|].
  cbn [Nat.add days]. rewrite IH. rewrite <- Nat.iter_succ_r. done.
Qed.

Lemma store_calls_app t1 t2 : store_calls (t1 ++ t2) = store_calls t1 ++ store_calls t2.
Proof. unfold store_calls. by rewrite filter_app. Qed.

Context (store : Store) (sensors : option loc) (db : option string)
  (down_sampling : bool).

Lemma after_days_app s l1 l2 :
  after_days s sensors db down_sampling (l1 ++ l2)
  = after_days (after_days s sensors db down_sampling l1) sensors db down_sampling l2.
Proof. unfold after_days. by rewrite foldl_app. Qed.

Lemma effective_listed_after_days l : ∀ s,
  effective (listed (after_days s sensors db down_sampling l) sensors)
  = effective (listed s sensors).
Proof.
  induction l as [|d l IH]; intros s; [done|].
  cbn [after_days foldl]. fold (after_days (after_get_data s (Some (strftime d)) sensors db
                                            down_sampling) sensors db down_sampling l).
  by rewrite IH, listed_after, effective_idem.
Qed.

Lemma trace_after_days l : ∀ s,
  ∃ evs, trace (after_days s sensors db down_sampling l) = trace s ++ evs
    ∧ store_calls evs = (λ d, Fetch_data (Some (strftime d)) db down_sampling) <$> l.
Proof.
  induction l as [|d l IH]; intros s.
  - exists []. by rewrite app_nil_r.
  - destruct (IH (after_get_data s (Some (strftime d)) sensors db down_sampling))
      as (evs & Ht & Hc).
    exists ((Fetch_data (Some (strftime d)) db down_sampling :: appended s sensors) ++ evs).
    split.
    + cbn [after_days foldl]. unfold after_days in Ht. rewrite Ht. simpl.
      by rewrite <- app_assoc.
    + rewrite store_calls_app, Hc. rewrite fmap_cons. f_equal.
      unfold store_calls, appended. simpl.
      destruct sensors as [l0|]; [|done].
      by destruct (needs_timestamp _).
Qed.

(** The whole run, for a range that ends before the last day of the
    calendar. *)
Lemma get_range_data_closed from_date to_date s from_dt to_dt :
  strptime from_date = Ret from_dt →
  strptime to_date = Ret to_dt →
  toordinal to_dt < toordinal max_date →
  let l := days from_dt (Z.to_nat (toordinal to_dt - toordinal from_dt + 1)) in
  get_range_data store from_date to_date sensors db down_sampling s
  = (Ret {| from_date := from_date; to_date := to_date;
            range_data := day_entry store (effective (listed s sensors)) db down_sampling
                            <$> l |},
     after_days s sensors db down_sampling l).
Proof.
  intros Hf Ht Hmax l. subst l.
  assert (Hvf := strptime_valid _ _ Hf). assert (Hvt := strptime_valid _ _ Ht).
  rewrite (get_range_data_run _ _ _ _ _ _ _ from_dt to_dt) by done.
  destruct (Z.lt_ge_cases (toordinal to_dt) (toordinal from_dt)) as [Hlt|Hge].
  - rewrite range_loop_exit.
    + by replace (Z.to_nat _) with 0%nat by lia.
    + rewrite le_toordinal by done. apply Z.leb_gt. lia.
  - by rewrite (range_loop_run _ _ _ _
                  (Z.to_nat (toordinal to_dt - toordinal from_dt + 1))) by (try done; lia).
Qed.

(** The state a call leaves, whether it returns or overflows. *)
Lemma get_range_data_final from_date to_date s from_dt to_dt :
  strptime from_date = Ret from_dt →
  strptime to_date = Ret to_dt →
  final (get_range_data store from_date to_date sensors db down_sampling) s
  = after_days s sensors db down_sampling
      (days from_dt (Z.to_nat (toordinal to_dt - toordinal from_dt + 1))).
Proof.
  intros Hf Ht.
  assert (Hvf := strptime_valid _ _ Hf). assert (Hvt := strptime_valid _ _ Ht).
  assert (Hle := toordinal_le_max _ Hvt).
  destruct (Z.eq_dec (toordinal to_dt) (toordinal max_date)) as [Heq|Hne].
  - assert (to_dt = max_date) as -> by (by apply toordinal_inj).
    assert (Hlef := toordinal_le_max _ Hvf).
    unfold final. rewrite (get_range_data_run _ _ _ _ _ _ _ from_dt max_date) by done.
    rewrite (range_loop_overflow _ _ _ _
               (Z.to_nat (toordinal max_date - toordinal from_dt))) by (try done; lia).
    cbn [snd].
    by replace (Z.to_nat (toordinal max_date - toordinal from_dt + 1))
      with (S (Z.to_nat (toordinal max_date - toordinal from_dt))) by lia.
  - unfold final. by rewrite (get_range_data_closed _ _ _ from_dt to_dt) by (try done; lia).
Qed.

(** X5. An ASCII date text that [strptime] does not accept makes
    [get_range_data] raise [ValueError] at once: [from_date] is read first,
    then [to_date], and in both cases the store has not been called and no
    list touched. *)
Theorem get_range_data_bad_date (from_date to_date : string) (s : state) :
  (∀ e, is_ascii from_date = true → strptime from_date = Raise e →
     get_range_data store from_date to_date sensors db down_sampling s
     = (Raise ValueError, s))
  ∧ (∀ from_dt e, strptime from_date = Ret from_dt →
       is_ascii to_date = true → strptime to_date = Raise e →
       get_range_data store from_date to_date sensors db down_sampling s
       = (Raise ValueError, s)).
Proof.
  split.
  - intros e _ He. unfold get_range_data, bind, lift. rewrite He.
    by rewrite (strptime_raises _ _ He).
  - intros from_dt e Hf _ He. unfold get_range_data, bind, lift. rewrite Hf, He.
    by rewrite (strptime_raises _ _ He).
Qed.

(** X6. For parseable dates from the year 1000 on, whether the call
    returns or overflows at the end of the calendar, the store calls of
    [get_range_data] are exactly one [fetch_data] per day from [from_date] to
    [to_date], in chronological order, each with the caller's [db] and
    [down_sampling]; [get_last_value] is never called, and an inverted range
    calls nothing. *)
Theorem get_range_data_fetches (from_date to_date : string) (s : state)
    (from_dt to_dt : datetime) :
  strptime from_date = Ret from_dt →
  strptime to_date = Ret to_dt →
  1000 <= year from_dt →
  let n := Z.to_nat (toordinal to_dt - toordinal from_dt + 1) in
  ∃ evs,
    trace (final (get_range_data store from_date to_date sensors db down_sampling) s)
      = trace s ++ evs
    ∧ store_calls evs
      = (λ d, Fetch_data (Some (strftime d)) db down_sampling) <$> days from_dt n
    ∧ length (store_calls evs) = n.
Proof.
  intros Hf Ht _ n. rewrite (get_range_data_final _ _ _ from_dt to_dt) by done. fold n.
  destruct (trace_after_days (days from_dt n) s) as (evs & Htr & Hc).
  exists evs. split; [done|]. split; [done|].
  by rewrite Hc, length_fmap, length_days.
Qed.

(** X7. A range can be fetched in two parts. When [next_date] is the day
    after [mid_date], the call for [from_date .. mid_date] followed by the
    call for [next_date .. to_date] returns, put end to end, the entries of
    the one call for [from_date .. to_date], and leaves the same state. *)
Theorem get_range_data_split (from_date mid_date next_date to_date : string) (s : state)
    (from_dt mid_dt next_dt to_dt : datetime) :
  strptime from_date = Ret from_dt →
  strptime mid_date = Ret mid_dt →
  strptime next_date = Ret next_dt →
  strptime to_date = Ret to_dt →
  toordinal from_dt <= toordinal mid_dt →
  toordinal next_dt = toordinal mid_dt + 1 →
  toordinal next_dt <= toordinal to_dt →
  toordinal to_dt < toordinal max_date →
  let first := get_range_data store from_date mid_date sensors db down_sampling in
  let second := get_range_data store next_date to_date sensors db down_sampling in
  let whole := get_range_data store from_date to_date sensors db down_sampling in
  ∃ entries1 entries2,
    result first s
      = Ret {| from_date := from_date; to_date := mid_date; range_data := entries1 |}
    ∧ result second (final first s)
      = Ret {| from_date := next_date; to_date := to_date; range_data := entries2 |}
    ∧ result whole s
      = Ret {| from_date := from_date; to_date := to_date;
               range_data := entries1 ++ entries2 |}
    ∧ final second (final first s) = final whole s.
Proof.
  intros Hf Hm Hn Ht Hfm Hnext Hnt Hmax first second whole. subst first second whole.
  assert (Hvf := strptime_valid _ _ Hf). assert (Hvn := strptime_valid _ _ Hn).
  set (n1 := Z.to_nat (toordinal mid_dt - toordinal from_dt + 1)).
  set (n2 := Z.to_nat (toordinal to_dt - toordinal next_dt + 1)).
  assert (Hsum : Z.to_nat (toordinal to_dt - toordinal from_dt + 1) = (n1 + n2)%nat)
    by lia.
  assert (Hiter : Nat.iter n1 next_day from_dt = next_dt).
  { destruct (iter_next_day from_dt n1 Hvf) as [Hv Ho]; [lia|].
    apply toordinal_inj; [done..|]. lia. }
  unfold result, final.
  rewrite (get_range_data_closed from_date mid_date s from_dt mid_dt) by (try done; lia).
  rewrite (get_range_data_closed from_date to_date s from_dt to_dt) by done.
  cbv zeta. cbn [fst snd]. fold n1. rewrite Hsum, days_app, Hiter.
  rewrite (get_range_data_closed next_date to_date _ next_dt to_dt) by done.
  cbv zeta. cbn [fst snd]. fold n2.
  rewrite effective_listed_after_days.
  eexists _, _. split; [done|]. split; [done|].
  split; [by rewrite fmap_app | by rewrite after_days_app].
Qed.

End Range_more.

Lemma get_range_data_bad_date_witness :
  get_range_data Examples.store "2023-02-30" "2023-03-02" (Some Examples.sensors) None false
    Examples.initial
  = (Raise ValueError, Examples.initial)
  ∧ get_range_data Examples.store "2023-02-27" "2023-13-01" (Some Examples.sensors) None
      false Examples.initial
    = (Raise ValueError, Examples.initial).
Proof.
  pose proof (get_range_data_bad_date Examples.store (Some Examples.sensors) None false)
    as H.
  split.
  - apply (proj1 (H "2023-02-30" "2023-03-02" Examples.initial) ValueError); reflexivity.
  - apply (proj2 (H "2023-02-27" "2023-13-01" Examples.initial)
             {| Calendar.year := 2023; Calendar.month := 2; Calendar.day := 27 |}
             ValueError); reflexivity.
Defined.

Lemma get_range_data_fetches_witness :
  ∃ evs,
    trace (final (get_range_data Examples.store "2023-02-27" "2023-03-01"
                    (Some Examples.sensors) None true) Examples.initial)
      = trace Examples.initial ++ evs
    ∧ store_calls evs
      = [Fetch_data (Some "2023-02-27") None true; Fetch_data (Some "2023-02-28") None true;
         Fetch_data (Some "2023-03-01") None true]
    ∧ length (store_calls evs) = 3%nat.
Proof.
  apply (get_range_data_fetches Examples.store (Some Examples.sensors) None true
           "2023-02-27" "2023-03-01" Examples.initial
           {| Calendar.year := 2023; Calendar.month := 2; Calendar.day := 27 |}
           {| Calendar.year := 2023; Calendar.month := 3; Calendar.day := 1 |});
    first [reflexivity | vm_compute; discriminate].
Defined.

Lemma get_range_data_split_witness :
  ∃ entries1 entries2,
    result (get_range_data Examples.store "2023-02-27" "2023-02-28"
              (Some Examples.sensors) None false) Examples.initial
      = Ret {| from_date := "2023-02-27"; to_date := "2023-02-28";
               range_data := entries1 |}
    ∧ result (get_range_data Examples.store "2023-03-01" "2023-03-02"
                (Some Examples.sensors) None false)
        (final (get_range_data Examples.store "2023-02-27" "2023-02-28"
                  (Some Examples.sensors) None false) Examples.initial)
      = Ret {| from_date := "2023-03-01"; to_date := "2023-03-02";
               range_data := entries2 |}
    ∧ result (get_range_data Examples.store "2023-02-27" "2023-03-02"
                (Some Examples.sensors) None false) Examples.initial
      = Ret {| from_date := "2023-02-27"; to_date := "2023-03-02";
               range_data := entries1 ++ entries2 |}
    ∧ final (get_range_data Examples.store "2023-03-01" "2023-03-02"
               (Some Examples.sensors) None false)
        (final (get_range_data Examples.store "2023-02-27" "2023-02-28"
                  (Some Examples.sensors) None false) Examples.initial)
      = final (get_range_data Examples.store "2023-02-27" "2023-03-02"
                 (Some Examples.sensors) None false) Examples.initial.
Proof.
  apply (get_range_data_split Examples.store (Some Examples.sensors) None false
           "2023-02-27" "2023-02-28" "2023-03-01" "2023-03-02" Examples.initial
           {| Calendar.year := 2023; Calendar.month := 2; Calendar.day := 27 |}
           {| Calendar.year := 2023; Calendar.month := 2; Calendar.day := 28 |}
           {| Calendar.year := 2023; Calendar.month := 3; Calendar.day := 1 |}
           {| Calendar.year := 2023; Calendar.month := 3; Calendar.day := 2 |});
    try reflexivity; vm_compute; first [reflexivity | discriminate].
Defined.

(** ** Metadata: how [has_meta] and [get_meta] agree *)

(** X8. For a non-empty field name the two accessors agree: [has_meta]
    answers [True] exactly when [get_meta] returns a stored value other than
    the string ["null"], and [False] exactly when [get_meta] returns the
    empty dict or the string ["null"]. *)
Theorem has_meta_get_meta (store : Store) (field : string) (db : option string)
    (s : state) :
  field ≠ "" →
  let has := result (has_meta store field db) s in
  let got := result (get_meta store (Some field) db) s in
  (has = Ret true ↔ ∃ v, got = Ret (MetaValue v) ∧ v ≠ VStr "null")
  ∧ (has = Ret false ↔ got = Ret (MetaDict ∅) ∨ got = Ret (MetaValue (VStr "null"))).
Proof.
  intros Hne has got. subst has got. unfold result.
  rewrite has_meta_run, get_meta_run. cbn [fst].
  replace (not_str (Some field)) with false by (by destruct field).
  cbn [mbind option_bind]. 
  destruct (store_meta store db !! field) as [v|] eqn:E.
  - assert (Hn := ne_str_false v "null").
    destruct (ne_str v "null") eqn:En.
    + split; split; try done.
      * intros _. exists v. split; [done|]. intros ->.
        destruct Hn as [_ Hn]. by specialize (Hn eq_refl).
      * intros [?|[= ->]]; [done|]. destruct Hn as [_ Hn]. by specialize (Hn eq_refl).
    + destruct Hn as [Hn _]. specialize (Hn eq_refl). subst v.
      split; split; try done.
      * intros (v & [= <-] & Hv). done.
      * intros _. by right.
  - split; split; try done.
    + intros (v & ? & _). done.
    + intros _. by left.
Qed.

Lemma has_meta_get_meta_witness :
  (result (has_meta Examples.store "Floors" None) Examples.initial = Ret true
   ↔ ∃ v, result (get_meta Examples.store (Some "Floors") None) Examples.initial
            = Ret (MetaValue v) ∧ v ≠ VStr "null")
  ∧ (result (has_meta Examples.store "Floors" None) Examples.initial = Ret false
     ↔ result (get_meta Examples.store (Some "Floors") None) Examples.initial
         = Ret (MetaDict ∅)
       ∨ result (get_meta Examples.store (Some "Floors") None) Examples.initial
         = Ret (MetaValue (VStr "null"))).
Proof.
  apply (has_meta_get_meta Examples.store "Floors" None Examples.initial). discriminate.
Defined.

(** ** [get_mean_consumption]: the sentinel and the store calls *)

(** X9. Where the field ["Household m2"], if it holds text, holds ASCII
    text, the integer [-1] comes out of [get_mean_consumption] in three cases
    only: the field is absent, or holds the string ["null"], or holds a value
    of which [float()] makes zero.  No other integer is ever returned: every
    other result is a float or an exception. *)
Theorem get_mean_consumption_sentinel (store : Store) (date : string)
    (db : option string) (s : state) :
  let meta := store_meta store db in
  let r := result (get_mean_consumption store date db) s in
  (∀ v, meta !! "Household m2" = Some v → ascii_value v = true) →
  (r = Ret (VInt (-1))
   ↔ meta !! "Household m2" = None
     ∨ meta !! "Household m2" = Some (VStr "null")
     ∨ ∃ v size, meta !! "Household m2" = Some v
         ∧ PyFloat.of_value v = Ret size ∧ PrimFloat.eqb size 0 = true)
  ∧ (r = Ret (VInt (-1)) ∨ (∃ x, r = Ret (VFloat x)) ∨ ∃ e, r = Raise e).
Proof.
  intros meta r _. subst r. rewrite get_mean_consumption_run. fold meta.
  destruct (meta !! "Household m2") as [v|] eqn:E.
  2:{ split; [|by left]. split; [by left | done]. }
  assert (Hn := ne_str_false v "null").
  destruct (ne_str v "null") eqn:En.
  2:{ destruct Hn as [Hn _]. specialize (Hn eq_refl). subst v.
      split; [|by left]. split; [by right; left | done]. }
  assert (Hv : v ≠ VStr "null").
  { intros ->. destruct Hn as [_ Hn]. by specialize (Hn eq_refl). }
  clear Hn.
  destruct (PyFloat.of_value v) as [size|e] eqn:Ef.
  2:{ split; [|right; right; eauto]. split; [done|].
      intros [?|[[= ?]|(v' & size & [= <-] & ? & _)]]; [done | done | congruence]. }
  unfold PyFloat.truthy, truediv. destruct (PrimFloat.eqb size 0) eqn:Hz; cbn [negb].
  - split; [|by left]. split; [|done]. intros _. right; right. eauto.
  - split; [|right; left; eauto]. split; [done|].
    intros [?|[[= ?]|(v' & size' & [= <-] & Hs & Hz')]]; [done | done | congruence].
Qed.

Lemma get_mean_consumption_sentinel_witness :
  (result (get_mean_consumption Examples.unsized_store "2023-02-27" None) Examples.initial
   = Ret (VInt (-1))
   ↔ store_meta Examples.unsized_store None !! "Household m2" = None
     ∨ store_meta Examples.unsized_store None !! "Household m2" = Some (VStr "null")
     ∨ ∃ v size, store_meta Examples.unsized_store None !! "Household m2" = Some v
         ∧ PyFloat.of_value v = Ret size ∧ PrimFloat.eqb size 0 = true)
  ∧ (result (get_mean_consumption Examples.unsized_store "2023-02-27" None)
       Examples.initial = Ret (VInt (-1))
     ∨ (∃ x, result (get_mean_consumption Examples.unsized_store "2023-02-27" None)
               Examples.initial = Ret (VFloat x))
     ∨ ∃ e, result (get_mean_consumption Examples.unsized_store "2023-02-27" None)
              Examples.initial = Raise e).
Proof.
  apply (get_mean_consumption_sentinel Examples.unsized_store "2023-02-27" None
           Examples.initial).
  intros v Hv. vm_compute in Hv. injection Hv as <-. reflexivity.
Defined.

Lemma get_mean_consumption_final store date db s :
  final (get_mean_consumption store date db) s =
  {| heap := heap s;
     trace := trace s ++ [Get_view_daily_consumption date db; Fetch_meta db]
              ++ match store_meta store db !! "Household m2" with
                 | Some v => if ne_str v "null" then [Fetch_meta db] else []
                 | None => []
                 end |}.
Proof.
  unfold final, get_mean_consumption, get_date_consumption, get_view_daily_consumption.
  unfold bind at 1 2 3. unfold emit at 1, ret at 1 2. simpl.
  unfold bind at 1. rewrite has_meta_run. simpl.
  destruct (store_meta store db !! "Household m2") as [v|] eqn:E.
  2:{ unfold ret. simpl. by rewrite <- app_assoc. }
  destruct (ne_str v "null").
  2:{ unfold ret. simpl. by rewrite <- app_assoc. }
  unfold bind at 1. rewrite get_meta_run. simpl. rewrite E. run.
  destruct (PyFloat.of_value v) as [size|e]; simpl.
  - destruct (PyFloat.truthy size); simpl; by rewrite <- !app_assoc.
  - by rewrite <- !app_assoc.
Qed.

(** X10. [get_mean_consumption] touches no list and calls the store in a
    fixed order: the daily consumption view first, whatever the metadata
    (so also when the answer is [-1]), then the metadata once, and a second
    time exactly when the field ["Household m2"] is present and is not the
    string ["null"]. *)
Theorem get_mean_consumption_calls (store : Store) (date : string) (db : option string)
    (s : state) :
  let s' := final (get_mean_consumption store date db) s in
  let present := match store_meta store db !! "Household m2" with
                 | Some v => ne_str v "null"
                 | None => false
                 end in
  heap s' = heap s
  ∧ trace s' = trace s ++ [Get_view_daily_consumption date db; Fetch_meta db]
               ++ (if present then [Fetch_meta db] else [])
  ∧ (present = true ↔ result (has_meta store "Household m2" db) s = Ret true).
Proof.
  intros s' present. subst s' present. rewrite get_mean_consumption_final. simpl.
  split; [done|]. split.
  - by destruct (store_meta store db !! "Household m2").
  - unfold result. rewrite has_meta_run. simpl.
    destruct (store_meta store db !! "Household m2"); [|done].
    split; [by intros -> | by intros [= ->]].
Qed.

(** ** [get_plot] *)

Lemma get_plot_run (store : Store) {BytesIO : Type}
    (plot_data : EnergyData → option (list string) → BytesIO) date sensors db s :
  get_plot store plot_data date sensors db s =
  (Ret (plot_data
          {| date := Some date;
             energy_data := select (effective (listed s sensors))
                              (energy_data (store_fetch_data store (Some date) db false)) |}
          (match sensors with
           | None => None
           | Some _ => Some (effective (listed s sensors))
           end)),
   after_get_data s (Some date) sensors db false).
Proof.
  unfold get_plot. unfold bind at 1. rewrite get_data_run.
  destruct sensors as [l|]; [|done].
  assert (Hl : default [] (heap (after_get_data s (Some date) (Some l) db false) !! l)
               = effective (listed s (Some l)))
    by apply (listed_after s (Some date) (Some l) db false).
  unfold bind, load, ret. by rewrite Hl.
Qed.

(** X11. [get_plot] hands [plot_data] the caller's own list, after
    [get_data] has run on it: for a non-empty list the columns plotted
    always include ["timestamp"], listed by the caller or not, and the data
    plotted are the day's records restricted to those columns; the caller's
    list keeps the appended name.  Without a list, [plot_data] gets the
    day's records as they are and no columns. *)
Theorem get_plot_columns (store : Store) {BytesIO : Type}
    (plot_data : EnergyData → option (list string) → BytesIO)
    (date : string) (db : option string) (s : state) :
  let raw_data := energy_data (store_fetch_data store (Some date) db false) in
  (∀ l xs, heap s !! l = Some xs → xs ≠ [] →
     let columns := effective xs in
     result (get_plot store plot_data date (Some l) db) s
       = Ret (plot_data {| date := Some date;
                           energy_data := filter_record columns <$> raw_data |}
                        (Some columns))
     ∧ "timestamp" ∈ columns
     ∧ (∀ k, k ∈ columns ↔ k ∈ xs ∨ k = "timestamp")
     ∧ heap (final (get_plot store plot_data date (Some l) db) s) !! l = Some columns)
  ∧ result (get_plot store plot_data date None db) s
    = Ret (plot_data {| date := Some date; energy_data := raw_data |} None).
Proof.
  intros raw_data. split.
  - intros l xs Hl Hne columns. unfold result, final. rewrite get_plot_run.
    cbn [fst snd]. unfold listed. rewrite Hl. cbn [default]. fold raw_data.
    rewrite select_effective by done. fold columns.
    split; [done|]. split; [apply elem_of_effective; auto|].
    split; [intros k; by apply elem_of_effective|].
    unfold after_get_data, heap_after, columns, effective, listed. cbn [heap].
    rewrite Hl. simpl.
    destruct (needs_timestamp xs); [by rewrite lookup_insert_eq | done].
  - unfold result. by rewrite get_plot_run.
Qed.

Lemma get_plot_columns_witness :
  result (get_plot Examples.store (λ data columns, (data, columns)) "2023-02-27"
            (Some Examples.sensors) None) Examples.initial
  = Ret ({| date := Some "2023-02-27";
            energy_data :=
              filter_record ["power"; "timestamp"]
                <$> [Examples.record0; Examples.record1] |},
         Some ["power"; "timestamp"]).
Proof.
  pose proof (get_plot_columns Examples.store (λ data columns, (data, columns))
                "2023-02-27" None Examples.initial) as H.
  cbv zeta in H. destruct H as [H _].
  destruct (H Examples.sensors ["power"]) as [Hres _]; [reflexivity | discriminate |].
  exact Hres.
Defined.
